(** * Market maker with linear inventory skewing: embedding of [strategy.py]

    The strategy class [MarketMaker] and its configuration
    [MarketMakerConfig] are embedded method by method.

    - [decimal.Decimal] values are rationals ([Q]); Python's [==], [<] and
      [>] on decimals compare numeric values, which is [Qeq], [Qlt] on [Q]
      (so [Decimal("5.0")] and [Decimal("5")] are equal, as in Python).
      Arithmetic is exact: the rounding of the default decimal context to 28
      significant digits is not part of the model.  Division is the one
      fallible operation and raises on a zero divisor.
    - The framework objects the strategy talks to (order book, prices,
      quantities) are an interface, the class [Nautilus]; every result holds
      for each implementation of it.
    - A method of the strategy is a computation in a state-and-exception
      monad over a [World]: the fields of [self] and the trace of requests
      the strategy has sent to the framework (log lines, subscriptions,
      timers, cancellations, orders). *)

From Stdlib Require Import QArith Qabs Qminmax Lqa ZArith List String Bool Lia.
Import ListNotations.

Local Open Scope Q_scope.

(** ** Exceptions and results *)

Inductive exn : Type :=
| DivisionByZero      (* decimal.DivisionByZero: x / 0 with x nonzero *)
| InvalidOperation    (* decimal.InvalidOperation: 0 / 0 *)
| TypeError.          (* arithmetic on None *)

Definition result (A : Type) : Type := (exn + A)%type.

Definition result_bind {A B : Type} (r : result A) (f : A -> result B) : result B :=
  match r with
  | inl e => inl e
  | inr a => f a
  end.

(** ** decimal.Decimal *)

Definition Decimal : Type := Q.

Module Dec.

(** [a == b] *)
Definition eqb (a b : Decimal) : bool := Qeq_bool a b.

(** [a < b] *)
Definition ltb (a b : Decimal) : bool := negb (Qle_bool b a).

(** [a > b] *)
Definition gtb (a b : Decimal) : bool := ltb b a.

(** Truth value of a decimal: false exactly for zero. *)
Definition truthy (a : Decimal) : bool := negb (eqb a 0).

(** [a / b] under the default context, where the traps for division by
    zero and invalid operation are set. *)
Definition div (a b : Decimal) : result Decimal :=
  if eqb b 0
  then (if eqb a 0 then inl InvalidOperation else inl DivisionByZero)
  else inr (a / b).

(** The builtin [min(a, b)]: [b] when [b < a], else [a]. *)
Definition min (a b : Decimal) : Decimal := if ltb b a then b else a.

(** The builtin [max(a, b)]: [b] when [b > a], else [a]. *)
Definition max (a b : Decimal) : Decimal := if gtb b a then b else a.

(** [abs(a)] *)
Definition abs (a : Decimal) : Decimal := Qabs a.

End Dec.

(** ** Identifiers, enumerations and instruments *)

Definition InstrumentId : Type := string.

Inductive BookType : Type := L1_MBP | L2_MBP | L3_MBO.

Inductive OrderSide : Type := BUY | SELL.

Record Instrument : Type := {
  id : InstrumentId;
  price_precision : Z;
  size_precision : Z
}.

(** ** The framework interface

    What the strategy uses of the trading framework.  [Price_new v p] is
    [Price(v, precision=p)], [make_qty i q] is [i.make_qty(q)]; an order book
    is created empty, updated by a batch of deltas and queried for its best
    prices, which are absent on an empty side.  The calls are taken to
    return normally. *)

Class Nautilus : Type := {
  Price : Type;
  Quantity : Type;
  OrderBook : Type;
  OrderBookDeltas : Type;
  Price_new : Decimal -> Z -> Price;
  Price_as_decimal : Price -> Decimal;
  Quantity_as_decimal : Quantity -> Decimal;
  make_qty : Instrument -> Decimal -> Quantity;
  OrderBook_new : InstrumentId -> BookType -> OrderBook;
  apply_deltas : OrderBook -> OrderBookDeltas -> OrderBook;
  best_bid_price : OrderBook -> option Price;
  best_ask_price : OrderBook -> option Price
}.

(** ** MarketMakerConfig *)

Record MarketMakerConfig : Type := {
  cfg_instrument_id : InstrumentId;
  cfg_trade_size : Decimal;
  cfg_spread_pct : Decimal;
  cfg_inventory_threshold : Decimal;
  cfg_quote_interval_seconds : Z;
  cfg_close_positions_on_stop : bool
}.

(** A keyword argument, given or left to its default. *)
Definition with_default {A : Type} (given : option A) (default : A) : A :=
  match given with
  | Some v => v
  | None => default
  end.

(** [MarketMakerConfig(instrument_id=..., trade_size=..., ...)]: the two
    fields without a default are required, an omitted keyword ([None] here)
    takes the default of the class body.  The class body declares fields and
    defaults and nothing else, so construction stores what it is given. *)
Definition MarketMakerConfig_new
    (instrument_id : InstrumentId) (trade_size : Decimal)
    (spread_pct inventory_threshold : option Decimal)
    (quote_interval_seconds : option Z)
    (close_positions_on_stop : option bool) : result MarketMakerConfig :=
  inr {| cfg_instrument_id := instrument_id;
         cfg_trade_size := trade_size;
         cfg_spread_pct := with_default spread_pct 0.01;
         cfg_inventory_threshold := with_default inventory_threshold 5.0;
         cfg_quote_interval_seconds := with_default quote_interval_seconds 30%Z;
         cfg_close_positions_on_stop := with_default close_positions_on_stop true |}.

(** The invariant the specification states for a configuration. *)
Definition well_formed_config (c : MarketMakerConfig) : Prop :=
  0 < cfg_trade_size c /\ 0 < cfg_spread_pct c /\
  0 < cfg_inventory_threshold c /\ (0 < cfg_quote_interval_seconds c)%Z.

(** ** The strategy *)

Section Strategy.

Context {N : Nautilus}.

(** An open position, as the source reads it: its [signed_qty] is an
    object that offers [as_decimal()]. *)
Record Position : Type := {
  signed_qty : Quantity
}.

(** The framework's cache, as the strategy reads it. *)
Record Cache : Type := {
  cache_instrument : InstrumentId -> option Instrument;
  positions_open : InstrumentId -> list Position
}.

Record LimitOrder : Type := {
  order_instrument_id : InstrumentId;
  order_side : OrderSide;
  order_price : Price;
  order_quantity : Quantity
}.

(** Fields of a [MarketMaker] instance. *)
Record MarketMaker : Type := {
  instrument_id : InstrumentId;
  trade_size : Decimal;
  spread_pct : Decimal;
  inventory_threshold : Decimal;
  quote_interval_seconds : Z;
  close_positions_on_stop : bool;
  instrument : option Instrument;
  _book : option OrderBook;
  _current_mid : option Decimal
}.

(** Log lines, with the values they print. *)
Inductive LogLevel : Type := INFO | WARNING | ERROR.

Inductive LogMessage : Type :=
| Msg_instrument_not_found (iid : InstrumentId)
| Msg_started (spread threshold : Decimal) (refresh : Z)
| Msg_bid_ask (bid ask : option Price)
| Msg_stopped
| Msg_cannot_quote
| Msg_refreshing
| Msg_placing
| Msg_long (position skew : Decimal)
| Msg_short (position skew : Decimal)
| Msg_final_spreads (bid ask : Decimal)
| Msg_no_position
| Msg_position_object (p : Position)
| Msg_position (qty : Decimal)
| Msg_submitting_buy (price : Decimal).

(** Requests of the strategy to the framework, in the order made. *)
Inductive Effect : Type :=
| Log (level : LogLevel) (msg : LogMessage)
| Stop_self
| Subscribe_order_book_deltas (iid : InstrumentId) (bt : BookType) (depth : Z)
| Set_timer (name : string) (interval_seconds : Z)
| Cancel_timer (name : string)
| Cancel_all_orders (iid : InstrumentId)
| Close_all_positions (iid : InstrumentId)
| Submit_order (o : LimitOrder).

Record World : Type := {
  self : MarketMaker;
  trace : list Effect
}.

(** *** The monad of methods *)

Definition M (A : Type) : Type := World -> result A * World.

Definition ret {A : Type} (a : A) : M A := fun w => (inr a, w).

Definition bind {A B : Type} (m : M A) (f : A -> M B) : M B :=
  fun w =>
    match m w with
    | (inr a, w') => f a w'
    | (inl e, w') => (inl e, w')
    end.

Definition lift {A : Type} (r : result A) : M A := fun w => (r, w).

Definition get_self : M MarketMaker := fun w => (inr (self w), w).

Definition put_self (s : MarketMaker) : M unit :=
  fun w => (inr tt, {| self := s; trace := trace w |}).

Definition emit (e : Effect) : M unit :=
  fun w => (inr tt, {| self := self w; trace := trace w ++ [e] |}).

Notation "x <- m ;; k" := (bind m (fun x => k))
  (at level 61, m at next level, right associativity).
Notation "m ;;; k" := (bind m (fun _ => k))
  (at level 61, right associativity).

Definition set_instrument (i : option Instrument) (s : MarketMaker) : MarketMaker :=
  {| instrument_id := instrument_id s; trade_size := trade_size s;
     spread_pct := spread_pct s; inventory_threshold := inventory_threshold s;
     quote_interval_seconds := quote_interval_seconds s;
     close_positions_on_stop := close_positions_on_stop s;
     instrument := i; _book := _book s; _current_mid := _current_mid s |}.

Definition set_book (b : option OrderBook) (s : MarketMaker) : MarketMaker :=
  {| instrument_id := instrument_id s; trade_size := trade_size s;
     spread_pct := spread_pct s; inventory_threshold := inventory_threshold s;
     quote_interval_seconds := quote_interval_seconds s;
     close_positions_on_stop := close_positions_on_stop s;
     instrument := instrument s; _book := b; _current_mid := _current_mid s |}.

Definition set_current_mid (m : option Decimal) (s : MarketMaker) : MarketMaker :=
  {| instrument_id := instrument_id s; trade_size := trade_size s;
     spread_pct := spread_pct s; inventory_threshold := inventory_threshold s;
     quote_interval_seconds := quote_interval_seconds s;
     close_positions_on_stop := close_positions_on_stop s;
     instrument := instrument s; _book := _book s; _current_mid := m |}.

(** *** MarketMaker.__init__ *)

Definition MarketMaker_init (config : MarketMakerConfig) : World :=
  {| self := {| instrument_id := cfg_instrument_id config;
                trade_size := cfg_trade_size config;
                spread_pct := cfg_spread_pct config;
                inventory_threshold := cfg_inventory_threshold config;
                quote_interval_seconds := cfg_quote_interval_seconds config;
                close_positions_on_stop := cfg_close_positions_on_stop config;
                instrument := None;
                _book := None;
                _current_mid := None |};
     trace := [] |}.

(** *** Lifecycle methods *)

Definition on_start (cache : Cache) : M unit :=
  s <- get_self ;;
  let found := cache_instrument cache (instrument_id s) in
  put_self (set_instrument found s) ;;;
  match found with
  | None =>
      emit (Log ERROR (Msg_instrument_not_found (instrument_id s))) ;;;
      emit Stop_self
  | Some i =>
      s <- get_self ;;
      put_self (set_book (Some (OrderBook_new (id i) L2_MBP)) s) ;;;
      emit (Subscribe_order_book_deltas (id i) L2_MBP 50) ;;;
      emit (Set_timer "quote_timer" (quote_interval_seconds s)) ;;;
      emit (Log INFO (Msg_started (spread_pct s) (inventory_threshold s)
                                  (quote_interval_seconds s)))
  end.

(** [Decimal((bid + ask) / 2)] on two prices. *)
Definition mid_of (bid ask : Price) : result Decimal :=
  Dec.div (Price_as_decimal bid + Price_as_decimal ask) 2.

(** An [OrderBook] and a [Price] define neither [__bool__] nor [__len__]:
    [not self._book] and [bid and ask] test for [None]. *)
Definition on_order_book_deltas (deltas : OrderBookDeltas) : M unit :=
  s <- get_self ;;
  match _book s with
  | None => ret tt
  | Some book =>
      let book := apply_deltas book deltas in
      put_self (set_book (Some book) s) ;;;
      let bid := best_bid_price book in
      let ask := best_ask_price book in
      emit (Log INFO (Msg_bid_ask bid ask)) ;;;
      match bid, ask with
      | Some b, Some a =>
          mid <- lift (mid_of b a) ;;
          s <- get_self ;;
          put_self (set_current_mid (Some mid) s)
      | _, _ => ret tt
      end
  end.

Definition on_stop : M unit :=
  s <- get_self ;;
  emit (Cancel_timer "quote_timer") ;;;
  emit (Cancel_all_orders (instrument_id s)) ;;;
  (if close_positions_on_stop s
   then emit (Close_all_positions (instrument_id s))
   else ret tt) ;;;
  emit (Log INFO Msg_stopped).

(** *** Skew calculation *)

Definition MAX_SKEW : Decimal := 0.5.

Definition _calculate_skew (s : MarketMaker) (position : Decimal) : result Decimal :=
  if Dec.eqb (inventory_threshold s) 0
  then inr 0
  else
    result_bind (Dec.div (Dec.abs position) (inventory_threshold s))
      (fun position_ratio =>
         let skew_amount := position_ratio * MAX_SKEW in
         inr (Dec.min skew_amount MAX_SKEW)).

(** *** Helper methods *)

Definition _get_position (cache : Cache) : M Decimal :=
  s <- get_self ;;
  let position := positions_open cache (instrument_id s) in
  match position with
  | [] =>
      emit (Log INFO Msg_no_position) ;;;
      ret 0
  | first :: _ =>
      emit (Log INFO (Msg_position_object first)) ;;;
      let qty := Quantity_as_decimal (signed_qty first) in
      emit (Log INFO (Msg_position qty)) ;;;
      ret qty
  end.

Definition _submit_buy (price : Decimal) : M unit :=
  emit (Log INFO (Msg_submitting_buy price)) ;;;
  s <- get_self ;;
  match instrument s with
  | None => ret tt
  | Some i =>
      let order :=
        {| order_instrument_id := instrument_id s;
           order_side := BUY;
           order_price := Price_new price (price_precision i);
           order_quantity := make_qty i (trade_size s) |} in
      emit (Submit_order order)
  end.

Definition _submit_sell (price : Decimal) : M unit :=
  s <- get_self ;;
  match instrument s with
  | None => ret tt
  | Some i =>
      let order :=
        {| order_instrument_id := instrument_id s;
           order_side := SELL;
           order_price := Price_new price (price_precision i);
           order_quantity := make_qty i (trade_size s) |} in
      emit (Submit_order order)
  end.

(** *** Core logic *)

Definition _place_orders (cache : Cache) : M unit :=
  emit (Log INFO Msg_placing) ;;;
  position <- _get_position cache ;;
  s <- get_self ;;
  skew_fraction <- lift (_calculate_skew s position) ;;
  half_spread <- lift (Dec.div (spread_pct s) 2) ;;
  let bid_spread := half_spread in
  let ask_spread := half_spread in
  spreads <-
    (if Dec.gtb position 0 then
       let reduction := half_spread * skew_fraction in
       emit (Log INFO (Msg_long position skew_fraction)) ;;;
       ret (bid_spread, ask_spread - reduction)
     else if Dec.ltb position 0 then
       let reduction := half_spread * skew_fraction in
       emit (Log INFO (Msg_short position skew_fraction)) ;;;
       ret (bid_spread - reduction, ask_spread)
     else ret (bid_spread, ask_spread)) ;;
  let bid_spread := Dec.max (fst spreads) 0 in
  let ask_spread := Dec.max (snd spreads) 0 in
  emit (Log INFO (Msg_final_spreads bid_spread ask_spread)) ;;;
  mid <- lift (match _current_mid s with
               | Some m => inr m
               | None => inl TypeError
               end) ;;
  let buy_price := mid * (1 - bid_spread) in
  let sell_price := mid * (1 + ask_spread) in
  _submit_buy buy_price ;;;
  _submit_sell sell_price.

(** *** Timer callback *)

Definition mid_available (m : option Decimal) : bool :=
  match m with
  | Some d => Dec.truthy d
  | None => false
  end.

Definition instrument_available (i : option Instrument) : bool :=
  match i with
  | Some _ => true
  | None => false
  end.

Definition _on_quote_timer (cache : Cache) : M unit :=
  s <- get_self ;;
  if negb (mid_available (_current_mid s)) || negb (instrument_available (instrument s))
  then emit (Log WARNING Msg_cannot_quote)
  else
    emit (Log INFO Msg_refreshing) ;;;
    emit (Cancel_all_orders (instrument_id s)) ;;;
    _place_orders cache.

(** *** Events *)

(** What the framework delivers to the strategy.  The cache is read at the
    moment a handler runs, so an event carries the cache of that moment. *)
Inductive Event : Type :=
| Ev_start (cache : Cache)
| Ev_order_book_deltas (deltas : OrderBookDeltas)
| Ev_quote_timer (cache : Cache)
| Ev_stop.

Definition handle (e : Event) : M unit :=
  match e with
  | Ev_start cache => on_start cache
  | Ev_order_book_deltas deltas => on_order_book_deltas deltas
  | Ev_quote_timer cache => _on_quote_timer cache
  | Ev_stop => on_stop
  end.

(** Events are handled one at a time, each on the world the previous one
    left. *)
Fixpoint run (events : list Event) (w : World) : World :=
  match events with
  | [] => w
  | e :: rest => run rest (snd (handle e w))
  end.

Definition is_book_event (e : Event) : bool :=
  match e with
  | Ev_order_book_deltas _ => true
  | _ => false
  end.

Definition is_submit (e : Effect) : bool :=
  match e with
  | Submit_order _ => true
  | _ => false
  end.

Definition is_cancel (e : Effect) : bool :=
  match e with
  | Cancel_all_orders _ => true
  | _ => false
  end.

(** *** The quote plan of one cycle

    The values [_place_orders] computes from the position it read up to the
    two prices it submits, without the log lines in between. *)

Record QuotePlan : Type := {
  bid_price : Decimal;
  ask_price : Decimal;
  bid_spread : Decimal;
  ask_spread : Decimal;
  skew_fraction : Decimal
}.

Definition plan (s : MarketMaker) (mid position : Decimal) : result QuotePlan :=
  result_bind (_calculate_skew s position) (fun skew =>
  result_bind (Dec.div (spread_pct s) 2) (fun half_spread =>
    let spreads :=
      if Dec.gtb position 0 then (half_spread, half_spread - half_spread * skew)
      else if Dec.ltb position 0 then (half_spread - half_spread * skew, half_spread)
      else (half_spread, half_spread) in
    let bid := Dec.max (fst spreads) 0 in
    let ask := Dec.max (snd spreads) 0 in
    inr {| bid_price := mid * (1 - bid);
           ask_price := mid * (1 + ask);
           bid_spread := bid;
           ask_spread := ask;
           skew_fraction := skew |})).

(** The position [_get_position] returns, and the lines it logs. *)
Definition position_read (cache : Cache) (s : MarketMaker) : Decimal :=
  match positions_open cache (instrument_id s) with
  | [] => 0
  | first :: _ => Quantity_as_decimal (signed_qty first)
  end.

Definition position_log (cache : Cache) (s : MarketMaker) : list Effect :=
  match positions_open cache (instrument_id s) with
  | [] => [Log INFO Msg_no_position]
  | first :: _ =>
      [Log INFO (Msg_position_object first);
       Log INFO (Msg_position (Quantity_as_decimal (signed_qty first)))]
  end.

Definition skew_log (position skew : Decimal) : list Effect :=
  if Dec.gtb position 0 then [Log INFO (Msg_long position skew)]
  else if Dec.ltb position 0 then [Log INFO (Msg_short position skew)]
  else [].

Definition limit_order (s : MarketMaker) (i : Instrument) (side : OrderSide)
    (price : Decimal) : LimitOrder :=
  {| order_instrument_id := instrument_id s;
     order_side := side;
     order_price := Price_new price (price_precision i);
     order_quantity := make_qty i (trade_size s) |}.

(** The orders [_submit_buy] and [_submit_sell] send: none without an
    instrument. *)
Definition submissions (s : MarketMaker) (buy_price sell_price : Decimal)
    : list Effect :=
  match instrument s with
  | None => []
  | Some i => [Submit_order (limit_order s i BUY buy_price);
               Submit_order (limit_order s i SELL sell_price)]
  end.

(** Everything one run of [_place_orders] adds to the trace. *)
Definition place_orders_trace (cache : Cache) (s : MarketMaker) (q : QuotePlan)
    : list Effect :=
  [Log INFO Msg_placing] ++ position_log cache s ++
  skew_log (position_read cache s) (skew_fraction q) ++
  [Log INFO (Msg_final_spreads (bid_spread q) (ask_spread q));
   Log INFO (Msg_submitting_buy (bid_price q))] ++
  submissions s (bid_price q) (ask_price q).

Definition add_trace (w : World) (effects : list Effect) : World :=
  {| self := self w; trace := trace w ++ effects |}.

(** *** Observations on states and traces *)

(** The fields copied from the configuration agree. *)
Definition same_config (a b : MarketMaker) : Prop :=
  instrument_id a = instrument_id b /\ trade_size a = trade_size b /\
  spread_pct a = spread_pct b /\ inventory_threshold a = inventory_threshold b /\
  quote_interval_seconds a = quote_interval_seconds b /\
  close_positions_on_stop a = close_positions_on_stop b.

Definition is_log (e : Effect) : bool :=
  match e with
  | Log _ _ => true
  | _ => false
  end.

Definition is_close (e : Effect) : bool :=
  match e with
  | Close_all_positions _ => true
  | _ => false
  end.

Definition is_subscription_or_timer (e : Effect) : bool :=
  match e with
  | Subscribe_order_book_deltas _ _ _ => true
  | Set_timer _ _ => true
  | _ => false
  end.

(** Reading a trace for the discipline of cancel-then-replace: a buy order
    is accepted only after a cancellation of all orders with no order in
    between, and the very next request after a buy order has to be the sell
    order. *)
Inductive Quoting : Type := Idle | Cancelled | Buy_sent.

Definition pairing_step (st : option Quoting) (e : Effect) : option Quoting :=
  match st with
  | None => None
  | Some Buy_sent =>
      match e with
      | Submit_order o =>
          match order_side o with SELL => Some Idle | BUY => None end
      | _ => None
      end
  | Some Cancelled =>
      match e with
      | Submit_order o =>
          match order_side o with BUY => Some Buy_sent | SELL => None end
      | _ => Some Cancelled
      end
  | Some Idle =>
      match e with
      | Submit_order _ => None
      | Cancel_all_orders _ => Some Cancelled
      | _ => Some Idle
      end
  end.

Definition pairing (from : Quoting) (effects : list Effect) : option Quoting :=
  fold_left pairing_step effects (Some from).

(** Every start in the list looks the instrument up in vain. *)
Definition start_fails (iid : InstrumentId) (e : Event) : Prop :=
  match e with
  | Ev_start cache => cache_instrument cache iid = None
  | _ => True
  end.

End Strategy.

(** ** An implementation of the framework interface

    A price keeps the decimal and the precision it was built from, a quantity
    is its decimal, an order book is its top of book and a batch of deltas
    states the top of book it leaves. *)

Module TopOfBook.

#[export] Instance nautilus : Nautilus := {|
  Price := Decimal * Z;
  Quantity := Decimal;
  OrderBook := option (Decimal * Z) * option (Decimal * Z);
  OrderBookDeltas := option (Decimal * Z) * option (Decimal * Z);
  Price_new := fun v p => (v, p);
  Price_as_decimal := fst;
  Quantity_as_decimal := fun q => q;
  make_qty := fun _ q => q;
  OrderBook_new := fun _ _ => (None, None);
  apply_deltas := fun _ d => d;
  best_bid_price := fst;
  best_ask_price := snd
|}.

Definition BTC : InstrumentId := "BTCUSDT-LINEAR.BYBIT"%string.

Definition btc_instrument : Instrument :=
  {| id := BTC; price_precision := 2; size_precision := 3 |}.

Definition position_of (qty : Decimal) : Position := {| signed_qty := qty |}.

(** A cache that knows the instrument and reports these open positions. *)
Definition cache_with (positions : list Decimal) : Cache :=
  {| cache_instrument := fun _ => Some btc_instrument;
     positions_open := fun _ => map position_of positions |}.

(** A strategy with the given spread and threshold that has stored [mid]. *)
Definition quoting (spread threshold : Decimal) (mid : option Decimal) : World :=
  {| self := {| instrument_id := BTC;
                trade_size := 0.01;
                spread_pct := spread;
                inventory_threshold := threshold;
                quote_interval_seconds := 5;
                close_positions_on_stop := true;
                instrument := Some btc_instrument;
                _book := Some (None, None);
                _current_mid := mid |};
     trace := [] |}.

(** The configuration of [main.py]. *)
Definition config : MarketMakerConfig :=
  {| cfg_instrument_id := BTC;
     cfg_trade_size := 0.01;
     cfg_spread_pct := 0.001;
     cfg_inventory_threshold := 5.0;
     cfg_quote_interval_seconds := 5;
     cfg_close_positions_on_stop := true |}.

(** A start followed by three timer ticks, no book update. *)
Definition ticks_without_book : list Event :=
  [Ev_start (cache_with [2.5]);
   Ev_quote_timer (cache_with [2.5]);
   Ev_quote_timer (cache_with [2.5]);
   Ev_quote_timer (cache_with [])].

End TopOfBook.

(** Further worlds and event sequences on the [TopOfBook] implementation. *)

Module Examples.

(** A cache that does not know the instrument. *)
Definition unknown_cache : Cache :=
  {| cache_instrument := fun _ => None;
     positions_open := fun _ => @nil (@Position TopOfBook.nautilus) |}.

(** A strategy that was never started but holds [mid]. *)
Definition unstarted (mid : option Decimal) : World :=
  {| self := {| instrument_id := TopOfBook.BTC;
                trade_size := 0.01;
                spread_pct := 0.01;
                inventory_threshold := 5;
                quote_interval_seconds := 5;
                close_positions_on_stop := true;
                instrument := None;
                _book := @None (@OrderBook TopOfBook.nautilus);
                _current_mid := mid |};
     trace := [] |}.

(** A start that fails, then a book update, ticks and a stop. *)
Definition after_failed_start : list Event :=
  [Ev_start unknown_cache;
   Ev_order_book_deltas (N := TopOfBook.nautilus) (Some (99, 2%Z), Some (101, 2%Z));
   Ev_quote_timer (TopOfBook.cache_with [1]);
   Ev_stop;
   Ev_quote_timer (TopOfBook.cache_with [1])].

(** The configuration of [main.py] with the close-on-stop flag off. *)
Definition keep_positions : MarketMakerConfig :=
  {| cfg_instrument_id := TopOfBook.BTC;
     cfg_trade_size := 0.01;
     cfg_spread_pct := 0.001;
     cfg_inventory_threshold := 5.0;
     cfg_quote_interval_seconds := 5;
     cfg_close_positions_on_stop := false |}.

(** A start, a book update, a tick and a stop. *)
Definition stop_after_start : list Event :=
  [Ev_start (TopOfBook.cache_with []);
   Ev_order_book_deltas (N := TopOfBook.nautilus) (Some (99, 2%Z), Some (101, 2%Z));
   Ev_quote_timer (TopOfBook.cache_with []);
   Ev_stop].

End Examples.

(** * Properties *)

(** ** Decimal comparisons, [min], [max] and division *)

Lemma eqb_true (a b : Decimal) : Dec.eqb a b = true <-> a == b.
Proof. apply Qeq_bool_iff. Qed.

Lemma eqb_false (a b : Decimal) : Dec.eqb a b = false <-> ~ a == b.
Proof.
  rewrite <- eqb_true. destruct (Dec.eqb a b); split; intro H;
    try discriminate; try reflexivity.
  now contradiction H.
Qed.

Lemma ltb_true (a b : Decimal) : Dec.ltb a b = true <-> a < b.
Proof.
  unfold Dec.ltb. rewrite negb_true_iff, <- not_true_iff_false, Qle_bool_iff.
  split; intro H; [now apply Qnot_le_lt | now apply Qlt_not_le].
Qed.

Lemma ltb_false (a b : Decimal) : Dec.ltb a b = false <-> b <= a.
Proof.
  unfold Dec.ltb. now rewrite negb_false_iff, Qle_bool_iff.
Qed.

Lemma min_cases (a b : Decimal) :
  (b < a /\ Dec.min a b = b) \/ (a <= b /\ Dec.min a b = a).
Proof.
  unfold Dec.min. destruct (Dec.ltb b a) eqn:E.
  - left. now rewrite ltb_true in E.
  - right. now rewrite ltb_false in E.
Qed.

Lemma max_cases (a b : Decimal) :
  (a < b /\ Dec.max a b = b) \/ (b <= a /\ Dec.max a b = a).
Proof.
  unfold Dec.max, Dec.gtb. destruct (Dec.ltb a b) eqn:E.
  - left. now rewrite ltb_true in E.
  - right. now rewrite ltb_false in E.
Qed.

Lemma max_0_nonneg (a : Decimal) : 0 <= Dec.max a 0.
Proof. destruct (max_cases a 0) as [[H ->] | [H ->]]; lra. Qed.

Lemma max_0_id (a : Decimal) : 0 <= a -> Dec.max a 0 = a.
Proof. intro H. destruct (max_cases a 0) as [[H' _] | [_ ->]]; [lra | reflexivity]. Qed.

Lemma div_nonzero (a b : Decimal) : ~ b == 0 -> Dec.div a b = inr (a / b).
Proof. intro H. unfold Dec.div. apply eqb_false in H. now rewrite H. Qed.

(** A division by zero raises. *)
Lemma div_zero_raises (a b : Decimal) :
  b == 0 -> Dec.div a b = inl DivisionByZero \/ Dec.div a b = inl InvalidOperation.
Proof.
  intro H. unfold Dec.div. rewrite (proj2 (eqb_true b 0) H).
  destruct (Dec.eqb a 0); auto.
Qed.

Lemma div_pos_mono (a b t : Decimal) : 0 < t -> a <= b -> a / t <= b / t.
Proof.
  intros Ht Hab. unfold Qdiv. apply Qmult_le_compat_r; [exact Hab |].
  apply Qlt_le_weak, Qinv_lt_0_compat, Ht.
Qed.

Lemma div_pos_ge_1 (a t : Decimal) : 0 < t -> t <= a -> 1 <= a / t.
Proof.
  intros Ht Hta. apply Qle_shift_div_l; [exact Ht | lra].
Qed.

Lemma div_pos_nonneg (a t : Decimal) : 0 < t -> 0 <= a -> 0 <= a / t.
Proof.
  intros Ht Ha. apply Qle_shift_div_l; [exact Ht | lra].
Qed.

(** ** The skew calculation *)

Section Skew.

Context {N : Nautilus}.

(** With a nonzero threshold the skew is [min(abs(position) / threshold * 0.5, 0.5)]. *)
Lemma _calculate_skew_nonzero (s : MarketMaker) (position : Decimal) :
  ~ inventory_threshold s == 0 ->
  _calculate_skew s position =
    inr (Dec.min (Qabs position / inventory_threshold s * MAX_SKEW) MAX_SKEW).
Proof.
  intro H. unfold _calculate_skew.
  rewrite (proj2 (eqb_false _ _) H).
  unfold Dec.abs. now rewrite (div_nonzero _ _ H).
Qed.

Lemma skew_mono_in_ratio (x y : Decimal) :
  x <= y -> Dec.min (x * MAX_SKEW) MAX_SKEW <= Dec.min (y * MAX_SKEW) MAX_SKEW.
Proof.
  intro H. unfold MAX_SKEW.
  destruct (min_cases (x * 0.5) 0.5) as [[Hx ->] | [Hx ->]];
    destruct (min_cases (y * 0.5) 0.5) as [[Hy ->] | [Hy ->]]; lra.
Qed.

(** C4: with a positive threshold the skew calculation returns a fraction
    in [0, 0.5]; the fraction is non-decreasing in abs(position), is exactly
    0.5 once abs(position) reaches the threshold, and is the same for two
    positions of equal magnitude. *)
Theorem skew_bounded_monotone_saturating (s : MarketMaker)
    (Hthr : 0 < inventory_threshold s) :
  (forall p, exists k,
      _calculate_skew s p = inr k /\ 0 <= k <= 0.5 /\
      (inventory_threshold s <= Qabs p -> k == 0.5)) /\
  (forall p q kp kq,
      _calculate_skew s p = inr kp -> _calculate_skew s q = inr kq ->
      Qabs p <= Qabs q -> kp <= kq) /\
  (forall p q kp kq,
      _calculate_skew s p = inr kp -> _calculate_skew s q = inr kq ->
      Qabs p == Qabs q -> kp == kq).
Proof.
  assert (Hnz : ~ inventory_threshold s == 0) by lra.
  assert (Hmono : forall p q kp kq,
      _calculate_skew s p = inr kp -> _calculate_skew s q = inr kq ->
      Qabs p <= Qabs q -> kp <= kq).
  { intros p q kp kq Hp Hq Hle.
    rewrite (_calculate_skew_nonzero s p Hnz) in Hp.
    rewrite (_calculate_skew_nonzero s q Hnz) in Hq.
    injection Hp as <-. injection Hq as <-.
    apply skew_mono_in_ratio, div_pos_mono; assumption. }
  split; [| split].
  - intro p. eexists. split; [apply (_calculate_skew_nonzero s p Hnz) |].
    pose proof (div_pos_nonneg (Qabs p) _ Hthr (Qabs_nonneg p)) as Hr.
    unfold MAX_SKEW.
    destruct (min_cases (Qabs p / inventory_threshold s * 0.5) 0.5)
      as [[Hm ->] | [Hm ->]].
    + split; [split; lra | intros _; reflexivity].
    + split; [split; lra | intro Hsat].
      pose proof (div_pos_ge_1 _ _ Hthr Hsat). lra.
  - exact Hmono.
  - intros p q kp kq Hp Hq Heq. apply Qle_antisym.
    + apply (Hmono p q); try assumption. rewrite Heq. apply Qle_refl.
    + apply (Hmono q p); try assumption. rewrite Heq. apply Qle_refl.
Qed.

(** C5: with a threshold equal to zero the skew calculation returns
    Decimal 0 for every position; it raises nothing, the division is not
    reached. *)
Theorem skew_zero_threshold (s : MarketMaker) (p : Decimal)
    (Hthr : inventory_threshold s == 0) :
  _calculate_skew s p = inr 0.
Proof.
  unfold _calculate_skew. now rewrite (proj2 (eqb_true _ _) Hthr).
Qed.

End Skew.

Lemma skew_bounded_monotone_saturating_witness :
  exists k,
    _calculate_skew (self (TopOfBook.quoting 0.01 5 None)) (-7) = inr k /\
    0 <= k <= 0.5 /\ k == 0.5.
Proof.
  destruct (skew_bounded_monotone_saturating (self (TopOfBook.quoting 0.01 5 None)))
    as (Hrange & _ & _).
  - reflexivity.
  - destruct (Hrange (-7)) as (k & Hk & Hb & Hsat).
    exists k. split; [exact Hk | split; [exact Hb |]].
    apply Hsat. discriminate.
Defined.

Lemma skew_zero_threshold_witness :
  _calculate_skew (self (TopOfBook.quoting 0.01 0.0 None)) 3 = inr 0.
Proof.
  apply skew_zero_threshold. reflexivity.
Defined.

(** ** The quote plan *)

Section Plan.

Context {N : Nautilus}.

Lemma _calculate_skew_total (s : MarketMaker) (p : Decimal) :
  exists k, _calculate_skew s p = inr k.
Proof.
  destruct (Dec.eqb (inventory_threshold s) 0) eqn:E.
  - exists 0. unfold _calculate_skew. now rewrite E.
  - eexists. apply _calculate_skew_nonzero. now apply eqb_false.
Qed.

Lemma _calculate_skew_opp (s : MarketMaker) (p : Decimal) :
  _calculate_skew s (- p) = _calculate_skew s p.
Proof.
  unfold _calculate_skew, Dec.abs.
  replace (Qabs (- p)) with (Qabs p); [reflexivity |].
  destruct p as [n d]. unfold Qabs, Qopp. simpl. now rewrite Z.abs_opp.
Qed.

Lemma div_2 (a : Decimal) : Dec.div a 2 = inr (a / 2).
Proof. reflexivity. Qed.

(** [plan] never raises. *)
Lemma plan_total (s : MarketMaker) (mid position : Decimal) :
  exists q, plan s mid position = inr q.
Proof.
  unfold plan. destruct (_calculate_skew_total s position) as [k ->].
  simpl. eexists. reflexivity.
Qed.

(** The spreads of a plan, by the sign of the position. *)
Lemma plan_long (s : MarketMaker) (mid position : Decimal) (q : QuotePlan) :
  0 < position -> plan s mid position = inr q ->
  _calculate_skew s position = inr (skew_fraction q) /\
  bid_spread q = Dec.max (spread_pct s / 2) 0 /\
  ask_spread q =
    Dec.max (spread_pct s / 2 - spread_pct s / 2 * skew_fraction q) 0.
Proof.
  intros Hpos Hq. unfold plan in Hq.
  destruct (_calculate_skew s position) as [e | k]; [discriminate |].
  simpl in Hq. unfold Dec.gtb in Hq.
  rewrite (proj2 (ltb_true 0 position) Hpos) in Hq.
  injection Hq as <-. simpl. auto.
Qed.

Lemma plan_short (s : MarketMaker) (mid position : Decimal) (q : QuotePlan) :
  position < 0 -> plan s mid position = inr q ->
  _calculate_skew s position = inr (skew_fraction q) /\
  bid_spread q =
    Dec.max (spread_pct s / 2 - spread_pct s / 2 * skew_fraction q) 0 /\
  ask_spread q = Dec.max (spread_pct s / 2) 0.
Proof.
  intros Hneg Hq. unfold plan in Hq.
  destruct (_calculate_skew s position) as [e | k]; [discriminate |].
  simpl in Hq. unfold Dec.gtb in Hq.
  rewrite (proj2 (ltb_false 0 position)) in Hq by lra.
  rewrite (proj2 (ltb_true position 0) Hneg) in Hq.
  injection Hq as <-. simpl. auto.
Qed.

Lemma plan_flat (s : MarketMaker) (mid position : Decimal) (q : QuotePlan) :
  position == 0 -> plan s mid position = inr q ->
  bid_spread q = Dec.max (spread_pct s / 2) 0 /\
  ask_spread q = Dec.max (spread_pct s / 2) 0.
Proof.
  intros Hz Hq. unfold plan in Hq.
  destruct (_calculate_skew s position) as [e | k]; [discriminate |].
  simpl in Hq. unfold Dec.gtb in Hq.
  rewrite (proj2 (ltb_false 0 position)) in Hq by lra.
  rewrite (proj2 (ltb_false position 0)) in Hq by lra.
  injection Hq as <-. simpl. auto.
Qed.

Lemma plan_prices (s : MarketMaker) (mid position : Decimal) (q : QuotePlan) :
  plan s mid position = inr q ->
  bid_price q = mid * (1 - bid_spread q) /\
  ask_price q = mid * (1 + ask_spread q) /\
  0 <= bid_spread q /\ 0 <= ask_spread q.
Proof.
  intro Hq. unfold plan in Hq.
  destruct (_calculate_skew s position) as [e | k]; [discriminate |].
  simpl in Hq. injection Hq as <-. simpl.
  repeat split; apply max_0_nonneg.
Qed.

End Plan.

(** ** Running the methods *)

Section Methods.

Context {N : Nautilus}.

Lemma add_trace_app (w : World) (l1 l2 : list Effect) :
  add_trace (add_trace w l1) l2 = add_trace w (l1 ++ l2).
Proof. unfold add_trace. simpl. now rewrite app_assoc. Qed.

(** Two traces are equal once their appends are associated to the right. *)
Ltac same_trace := simpl; repeat (rewrite <- app_assoc; simpl); reflexivity.

Lemma emit_run (e : Effect) (w : World) : emit e w = (inr tt, add_trace w [e]).
Proof. reflexivity. Qed.

Lemma _get_position_run (cache : Cache) (w : World) :
  _get_position cache w =
    (inr (position_read cache (self w)), add_trace w (position_log cache (self w))).
Proof.
  unfold _get_position, position_read, position_log, bind, get_self.
  destruct (positions_open cache (instrument_id (self w))) as [| first rest].
  - reflexivity.
  - unfold emit, ret, add_trace. simpl. same_trace.
Qed.

Lemma _submit_run (w : World) (buy_price sell_price : Decimal) :
  bind (_submit_buy buy_price) (fun _ => _submit_sell sell_price) w =
    (inr tt,
     add_trace w (Log INFO (Msg_submitting_buy buy_price)
                    :: submissions (self w) buy_price sell_price)).
Proof.
  unfold _submit_buy, _submit_sell, submissions, limit_order, bind, get_self, emit,
    ret, add_trace.
  destruct w as [s tr]. simpl.
  destruct (instrument s) as [i |] eqn:E; simpl; rewrite E; same_trace.
Qed.

(** [_place_orders] logs and submits the values of the plan: with a stored
    mid it returns normally, leaves the fields of the strategy as they are
    and extends the trace by [place_orders_trace]. *)
Lemma _place_orders_plan (cache : Cache) (w : World) (mid : Decimal) (q : QuotePlan) :
  _current_mid (self w) = Some mid ->
  plan (self w) mid (position_read cache (self w)) = inr q ->
  _place_orders cache w =
    (inr tt, add_trace w (place_orders_trace cache (self w) q)).
Proof.
  intros Hmid Hq. unfold _place_orders.
  unfold bind at 1. rewrite emit_run.
  unfold bind at 1. rewrite _get_position_run. simpl self.
  unfold bind at 1. unfold get_self at 1. simpl self.
  unfold plan in Hq.
  unfold bind at 1. unfold lift at 1.
  destruct (_calculate_skew (self w) (position_read cache (self w))) as [e | k];
    [discriminate |].
  simpl in Hq.
  unfold bind at 1. unfold lift at 1. rewrite div_2.
  injection Hq as <-. rewrite Hmid.
  unfold place_orders_trace, skew_log. simpl.
  destruct (Dec.gtb (position_read cache (self w)) 0);
    [| destruct (Dec.ltb (position_read cache (self w)) 0)];
    unfold bind at 1; repeat (unfold bind at 1; rewrite emit_run);
    unfold ret at 1; simpl fst; simpl snd;
    unfold bind at 1; rewrite emit_run;
    unfold bind at 1; unfold lift at 1;
    rewrite _submit_run; rewrite !add_trace_app; simpl self;
    do 2 f_equal; same_trace.
Qed.

(** A tick without a usable mid or without an instrument only logs the
    warning. *)
Lemma _on_quote_timer_skip (cache : Cache) (w : World) :
  mid_available (_current_mid (self w)) = false \/
  instrument_available (instrument (self w)) = false ->
  _on_quote_timer cache w = (inr tt, add_trace w [Log WARNING Msg_cannot_quote]).
Proof.
  intro H. unfold _on_quote_timer, bind, get_self.
  destruct H as [-> | ->]; simpl; [| rewrite orb_true_r]; apply emit_run.
Qed.

(** A tick with a nonzero mid and an instrument cancels, then places the
    orders of the plan. *)
Lemma _on_quote_timer_cycle (cache : Cache) (w : World) (mid : Decimal)
    (i : Instrument) (q : QuotePlan) :
  _current_mid (self w) = Some mid -> ~ mid == 0 ->
  instrument (self w) = Some i ->
  plan (self w) mid (position_read cache (self w)) = inr q ->
  _on_quote_timer cache w =
    (inr tt,
     add_trace w ([Log INFO Msg_refreshing; Cancel_all_orders (instrument_id (self w))]
                  ++ place_orders_trace cache (self w) q)).
Proof.
  intros Hmid Hnz Hinst Hq. unfold _on_quote_timer.
  unfold bind at 1. unfold get_self at 1.
  rewrite Hmid, Hinst. unfold mid_available, Dec.truthy, instrument_available.
  rewrite (proj2 (eqb_false mid 0) Hnz). simpl.
  unfold bind at 1. rewrite emit_run.
  unfold bind at 1. rewrite emit_run.
  rewrite (_place_orders_plan cache _ mid q); [| exact Hmid | exact Hq].
  rewrite !add_trace_app. reflexivity.
Qed.

(** What a handler adds to the trace while no mid is stored, when the event
    is not a book update: no order, and the stored mid stays absent. *)
Lemma handle_without_mid (e : Event) (w : World) :
  is_book_event e = false -> _current_mid (self w) = None ->
  exists added,
    trace (snd (handle e w)) = trace w ++ added /\
    _current_mid (self (snd (handle e w))) = None /\
    forallb (fun x => negb (is_submit x)) added = true /\
    (e <> Ev_stop -> forallb (fun x => negb (is_cancel x)) added = true).
Proof.
  intros Hbook Hmid. destruct e as [cache | deltas | cache |]; simpl handle.
  - unfold on_start, bind, get_self, put_self, emit. simpl.
    destruct (cache_instrument cache (instrument_id (self w))) as [i |]; simpl.
    + eexists. split; [| split; [exact Hmid | split; [| intros _]]].
      * same_trace.
      * reflexivity.
      * reflexivity.
    + eexists. split; [| split; [exact Hmid | split; [| intros _]]].
      * same_trace.
      * reflexivity.
      * reflexivity.
  - discriminate.
  - rewrite _on_quote_timer_skip by (left; now rewrite Hmid).
    exists [Log WARNING Msg_cannot_quote]. simpl. auto.
  - unfold on_stop, bind, get_self, emit. simpl.
    destruct (close_positions_on_stop (self w)); simpl.
    + eexists. split; [| split; [exact Hmid | split; [| intro H; now contradiction H]]].
      * same_trace.
      * reflexivity.
    + eexists. split; [| split; [exact Hmid | split; [| intro H; now contradiction H]]].
      * same_trace.
      * reflexivity.
Qed.

End Methods.

(** ** The quotes bracket the mid *)



(** ** Long and short plans mirror each other *)

(** C6, as the code has it: for a magnitude x > 0 and a spread_pct that is
    not negative, the plans for positions +x and -x mirror each other: the
    ask spread of the first is the bid spread of the second, and the other
    side of each is spread_pct / 2; for a position equal to zero both
    spreads are spread_pct / 2. *)
Theorem plan_mirror {N : Nautilus} (s : MarketMaker) (mid x : Decimal)
    (Hx : 0 < x) (Hspread : 0 <= spread_pct s) :
  (exists qlong qshort,
      plan s mid x = inr qlong /\ plan s mid (- x) = inr qshort /\
      ask_spread qlong == bid_spread qshort /\
      bid_spread qlong == spread_pct s / 2 /\
      ask_spread qshort == spread_pct s / 2) /\
  (forall z, z == 0 -> exists qflat,
      plan s mid z = inr qflat /\
      bid_spread qflat == spread_pct s / 2 /\
      ask_spread qflat == spread_pct s / 2).
Proof.
  assert (Hhalf : 0 <= spread_pct s / 2)
    by (apply div_pos_nonneg; [reflexivity | exact Hspread]).
  split.
  - destruct (plan_total s mid x) as [ql Hl].
    destruct (plan_total s mid (- x)) as [qs Hs].
    exists ql, qs.
    destruct (plan_long s mid x ql Hx Hl) as (Hkl & Hbl & Hal).
    assert (Hnx : - x < 0) by lra.
    destruct (plan_short s mid (- x) qs Hnx Hs) as (Hks & Hbs & Has).
    rewrite _calculate_skew_opp, Hkl in Hks. injection Hks as Hk.
    rewrite Hal, Hbs, Hbl, Has, Hk, (max_0_id _ Hhalf).
    split; [exact Hl | split; [exact Hs |]]. repeat split; reflexivity.
  - intros z Hz. destruct (plan_total s mid z) as [q0 Hq]. exists q0.
    destruct (plan_flat s mid z q0 Hz Hq) as (-> & ->).
    rewrite (max_0_id _ Hhalf). split; [exact Hq |]. split; reflexivity.
Qed.

Lemma plan_mirror_witness :
  exists qlong qshort,
    plan (self (TopOfBook.quoting 0.01 5 None)) 100 2.5 = inr qlong /\
    plan (self (TopOfBook.quoting 0.01 5 None)) 100 (- 2.5) = inr qshort /\
    ask_spread qlong == bid_spread qshort /\
    bid_spread qlong == 0.005 /\ ask_spread qshort == 0.005.
Proof.
  destruct (plan_mirror (self (TopOfBook.quoting 0.01 5 None)) 100 2.5)
    as ((ql & qs & Hl & Hs & Hm & Hb & Ha) & _).
  - reflexivity.
  - discriminate.
  - exists ql, qs.
    split; [exact Hl | split; [exact Hs | split; [exact Hm |]]].
    split; [rewrite Hb | rewrite Ha]; reflexivity.
Defined.

(** C6 as stated fails for a configuration with a negative spread_pct,
    which construction accepts: with spread_pct -0.01 the floor clamp makes
    the spread of the side that is not tightened 0, not spread_pct / 2, for
    a long position and for a flat one. *)
Lemma plan_mirror_negative_spread :
  exists qlong qflat,
    plan (self (TopOfBook.quoting (-0.01) 5 None)) 100 1 = inr qlong /\
    plan (self (TopOfBook.quoting (-0.01) 5 None)) 100 0 = inr qflat /\
    bid_spread qlong == 0 /\ ~ bid_spread qlong == (-0.01) / 2 /\
    bid_spread qflat == 0 /\ ~ bid_spread qflat == (-0.01) / 2.
Proof.
  eexists _, _. split; [vm_compute; reflexivity |].
  split; [vm_compute; reflexivity |].
  repeat split; discriminate.
Qed.

(** ** A quote cycle at the inventory threshold *)

Section Scenario.

Context {N : Nautilus}.

Lemma _calculate_skew_saturated (s : MarketMaker) (p k : Decimal) :
  0 < inventory_threshold s -> inventory_threshold s <= Qabs p ->
  _calculate_skew s p = inr k -> k == 0.5.
Proof.
  intros Hthr Hsat Hk.
  assert (Hnz : ~ inventory_threshold s == 0) by lra.
  rewrite (_calculate_skew_nonzero s p Hnz) in Hk. injection Hk as <-.
  pose proof (div_pos_ge_1 _ _ Hthr Hsat) as Hr. unfold MAX_SKEW.
  destruct (min_cases (Qabs p / inventory_threshold s * 0.5) 0.5)
    as [[Hm ->] | [Hm ->]]; lra.
Qed.

(** C1, as the code has it: with spread_pct 0.01, inventory_threshold 5
    and a mid of 100, the pricing for a position of 5.0 computes a skew of
    0.5 and halves the ask spread from 0.005 to 0.0025; the buy price is
    99.5 and the sell price 100.25. *)
Theorem pricing_at_threshold (s : MarketMaker) (mid position : Decimal)
    (Hspread : spread_pct s == 0.01)
    (Hthr : inventory_threshold s == 5)
    (Hmid : mid == 100)
    (Hposition : position == 5.0) :
  exists q,
    plan s mid position = inr q /\
    skew_fraction q == 0.5 /\
    bid_spread q == 0.005 /\ ask_spread q == 0.0025 /\
    bid_price q == 99.5 /\ ask_price q == 100.25.
Proof.
  destruct (plan_total s mid position) as [q Hq]. exists q.
  split; [exact Hq |].
  assert (Hlong : 0 < position) by (rewrite Hposition; reflexivity).
  destruct (plan_long _ _ _ _ Hlong Hq) as (Hk & Hb & Ha).
  destruct (plan_prices _ _ _ _ Hq) as (Hbp & Hap & _ & _).
  assert (Hskew : skew_fraction q == 0.5).
  { apply (_calculate_skew_saturated s _ _) in Hk; [exact Hk | |].
    - rewrite Hthr. reflexivity.
    - rewrite Hthr, Hposition. discriminate. }
  assert (Hbid : bid_spread q == 0.005).
  { rewrite Hb, max_0_id; rewrite Hspread; [reflexivity | discriminate]. }
  assert (Hask : ask_spread q == 0.0025).
  { rewrite Ha, max_0_id; rewrite Hspread, Hskew; [reflexivity | discriminate]. }
  repeat split; try assumption.
  - rewrite Hbp, Hbid, Hmid. reflexivity.
  - rewrite Hap, Hask, Hmid. reflexivity.
Qed.

End Scenario.

Lemma pricing_at_threshold_witness :
  exists q,
    plan (self (TopOfBook.quoting 0.01 5 (Some 100))) 100 5.0 = inr q /\
    bid_price q == 99.5 /\ ask_price q == 100.25.
Proof.
  destruct (pricing_at_threshold (self (TopOfBook.quoting 0.01 5 (Some 100)))
              100 5.0)
    as (q & Hq & _ & _ & _ & Hbid & Hask); try reflexivity.
  exists q. split; [exact Hq | split; [exact Hbid | exact Hask]].
Defined.

(** C1 as stated fails: for that configuration, mid and position the skew
    is 0.5, and yet the ask spread is not 0 and the sell price is not the
    mid, 100. *)
Lemma pricing_at_threshold_sell_above_mid :
  exists q,
    plan (self (TopOfBook.quoting 0.01 5 (Some 100))) 100 5.0 = inr q /\
    skew_fraction q == 0.5 /\
    ~ ask_spread q == 0 /\ ask_spread q == 0.0025 /\
    ~ ask_price q == 100 /\ ask_price q == 100.25 /\
    bid_price q == 99.5.
Proof.
  eexists. split; [vm_compute; reflexivity |].
  repeat split; discriminate.
Qed.

(** ** The mid-price tracker *)

(** C7: with an order book in place, a batch of deltas after which both best
    prices are present stores (best_bid + best_ask) / 2 as the mid; a batch
    after which a side is absent leaves the stored mid as it was.  In both
    cases the book is replaced by the updated one, one line is logged and
    nothing else changes.  Before the book exists a batch changes nothing
    at all. *)
Theorem book_update_sets_or_keeps_mid {N : Nautilus} (w : World)
    (deltas : OrderBookDeltas) :
  (forall book bid ask,
      _book (self w) = Some book ->
      best_bid_price (apply_deltas book deltas) = Some bid ->
      best_ask_price (apply_deltas book deltas) = Some ask ->
      on_order_book_deltas deltas w =
        (inr tt,
         {| self := set_current_mid
                      (Some ((Price_as_decimal bid + Price_as_decimal ask) / 2))
                      (set_book (Some (apply_deltas book deltas)) (self w));
            trace := trace w ++ [Log INFO (Msg_bid_ask (Some bid) (Some ask))] |})) /\
  (forall book,
      _book (self w) = Some book ->
      best_bid_price (apply_deltas book deltas) = None \/
      best_ask_price (apply_deltas book deltas) = None ->
      on_order_book_deltas deltas w =
        (inr tt,
         {| self := set_book (Some (apply_deltas book deltas)) (self w);
            trace := trace w ++
                     [Log INFO (Msg_bid_ask (best_bid_price (apply_deltas book deltas))
                                            (best_ask_price (apply_deltas book deltas)))] |}) /\
      _current_mid (self (snd (on_order_book_deltas deltas w)))
        = _current_mid (self w)) /\
  (_book (self w) = None -> on_order_book_deltas deltas w = (inr tt, w)).
Proof.
  unfold on_order_book_deltas, bind, get_self, put_self, emit.
  split; [| split].
  - intros book bid ask -> -> ->. reflexivity.
  - intros book -> [H | H].
    + rewrite H. split; reflexivity.
    + rewrite H. destruct (best_bid_price (apply_deltas book deltas));
        split; reflexivity.
  - intros ->. reflexivity.
Qed.

(** Best bid 99 and best ask 101 give the mid 100; a batch that then clears
    the ask side keeps the mid 100. *)
Lemma book_update_sets_or_keeps_mid_witness :
  (exists mid,
      _current_mid (self (snd (on_order_book_deltas
                                 (N := TopOfBook.nautilus)
                                 (Some (99, 2%Z), Some (101, 2%Z))
                                 (TopOfBook.quoting 0.01 5 None)))) = Some mid /\
      mid == 100) /\
  _current_mid (self (snd (on_order_book_deltas
                             (N := TopOfBook.nautilus)
                             (Some (99, 2%Z), None)
                             (TopOfBook.quoting 0.01 5 (Some 100))))) = Some 100.
Proof.
  split.
  - destruct (book_update_sets_or_keeps_mid (N := TopOfBook.nautilus)
                (TopOfBook.quoting 0.01 5 None)
                (Some (99, 2%Z), Some (101, 2%Z))) as (Hset & _ & _).
    rewrite (Hset (None, None) (99, 2%Z) (101, 2%Z) eq_refl eq_refl eq_refl).
    eexists. split; reflexivity.
  - destruct (book_update_sets_or_keeps_mid (N := TopOfBook.nautilus)
                (TopOfBook.quoting 0.01 5 (Some 100))
                (Some (99, 2%Z), None)) as (_ & Hkeep & _).
    destruct (Hkeep (None, None) eq_refl (or_intror eq_refl)) as [_ ->].
    reflexivity.
Defined.

(** ** The timer while no quote can be made *)

Lemma run_without_book_events {N : Nautilus} (events : list Event) (w : World) :
  Forall (fun e => is_book_event e = false) events ->
  _current_mid (self w) = None ->
  exists added,
    trace (run events w) = trace w ++ added /\
    _current_mid (self (run events w)) = None /\
    forallb (fun x => negb (is_submit x)) added = true /\
    (~ In Ev_stop events -> forallb (fun x => negb (is_cancel x)) added = true).
Proof.
  intros Hev. revert w. induction Hev as [| e rest He _ IH]; intros w Hmid.
  - exists []. simpl. rewrite app_nil_r. auto.
  - simpl run.
    destruct (handle_without_mid e w He Hmid) as (a1 & Hw & Hmid' & Hs1 & Hc1).
    destruct (IH _ Hmid') as (a2 & Htr & Hmid'' & Hs2 & Hc2).
    exists (a1 ++ a2). rewrite Htr, Hw, <- app_assoc.
    split; [reflexivity |]. split; [exact Hmid'' |].
    rewrite !forallb_app, Hs1, Hs2. split; [reflexivity |].
    intro Hstop. rewrite Hc1, Hc2; [reflexivity | |].
    + intro H. apply Hstop. now right.
    + intro H. apply Hstop. now left.
Qed.

(** C8: a timer tick in a state without a stored mid returns normally and
    adds one warning line to the trace, so it cancels nothing and submits
    nothing; and from the initial state, a run of events without a book
    update (starts, stops and any number of ticks) never stores a mid and
    never submits an order, and cancels nothing unless the strategy is
    stopped. *)
Theorem no_mid_no_quotes {N : Nautilus} :
  (forall cache w, _current_mid (self w) = None ->
     _on_quote_timer cache w =
       (inr tt, add_trace w [Log WARNING Msg_cannot_quote])) /\
  (forall config events,
     Forall (fun e => is_book_event e = false) events ->
     let final := run events (MarketMaker_init config) in
     _current_mid (self final) = None /\
     forallb (fun x => negb (is_submit x)) (trace final) = true /\
     (~ In Ev_stop events ->
      forallb (fun x => negb (is_cancel x)) (trace final) = true)).
Proof.
  split.
  - intros cache w Hmid. apply _on_quote_timer_skip. left. now rewrite Hmid.
  - intros config events Hev final. subst final.
    destruct (run_without_book_events events (MarketMaker_init config) Hev eq_refl)
      as (added & Htr & Hmid & Hs & Hc).
    rewrite Htr. simpl. auto.
Qed.

(** Start, then three ticks, with no book data: no mid is stored and the
    trace holds no order and no cancellation. *)
Lemma no_mid_no_quotes_witness :
  _current_mid (self (run TopOfBook.ticks_without_book
                          (MarketMaker_init TopOfBook.config))) = None /\
  forallb (fun x => negb (is_submit x))
          (trace (run TopOfBook.ticks_without_book
                      (MarketMaker_init TopOfBook.config))) = true /\
  forallb (fun x => negb (is_cancel x))
          (trace (run TopOfBook.ticks_without_book
                      (MarketMaker_init TopOfBook.config))) = true.
Proof.
  assert (Hev : Forall (fun e => is_book_event e = false) TopOfBook.ticks_without_book)
    by (repeat (apply Forall_cons; [reflexivity |]); apply Forall_nil).
  destruct (proj2 (no_mid_no_quotes (N := TopOfBook.nautilus))
              TopOfBook.config TopOfBook.ticks_without_book Hev)
    as (Hmid & Hsubmit & Hcancel).
  split; [exact Hmid | split; [exact Hsubmit |]].
  apply Hcancel. simpl. intros [H | [H | [H | [H | []]]]]; discriminate H.
Defined.

(** C9: when the stored mid is zero, or no instrument is set, a timer tick
    returns normally with the fields of the strategy untouched and one
    warning line added to the trace: nothing is cancelled, nothing is
    submitted. *)
Theorem zero_mid_is_no_mid {N : Nautilus} (cache : Cache) (w : World)
    (H : (exists mid, _current_mid (self w) = Some mid /\ mid == 0) \/
         instrument (self w) = None) :
  _on_quote_timer cache w =
    (inr tt, {| self := self w;
                trace := trace w ++ [Log WARNING Msg_cannot_quote] |}).
Proof.
  apply _on_quote_timer_skip. destruct H as [(mid & -> & Hz) | ->].
  - left. simpl. unfold Dec.truthy. now rewrite (proj2 (eqb_true mid 0) Hz).
  - right. reflexivity.
Qed.

Lemma zero_mid_is_no_mid_witness :
  trace (snd (_on_quote_timer (TopOfBook.cache_with [5.0])
                              (TopOfBook.quoting 0.01 5 (Some 0.00)))) =
    [Log WARNING Msg_cannot_quote].
Proof.
  rewrite (zero_mid_is_no_mid (N := TopOfBook.nautilus)).
  - reflexivity.
  - left. exists 0.00. split; reflexivity.
Defined.

(** ** Construction of the configuration *)

(** C2, as the code has it: construction checks no numeric field.  For
    every input it succeeds and the configuration holds the values given,
    with 0.01, 5.0, 30 and True for the keywords left out; the result has
    all numeric fields positive exactly when the values given are. *)
Theorem config_construction_keeps_values
    (instrument_id : InstrumentId) (trade_size : Decimal)
    (spread_pct inventory_threshold : option Decimal)
    (quote_interval_seconds : option Z) (close_positions_on_stop : option bool) :
  exists c,
    MarketMakerConfig_new instrument_id trade_size spread_pct inventory_threshold
      quote_interval_seconds close_positions_on_stop = inr c /\
    cfg_instrument_id c = instrument_id /\
    cfg_trade_size c = trade_size /\
    cfg_spread_pct c = with_default spread_pct 0.01 /\
    cfg_inventory_threshold c = with_default inventory_threshold 5.0 /\
    cfg_quote_interval_seconds c = with_default quote_interval_seconds 30%Z /\
    cfg_close_positions_on_stop c = with_default close_positions_on_stop true /\
    (well_formed_config c <->
     0 < trade_size /\ 0 < with_default spread_pct 0.01 /\
     0 < with_default inventory_threshold 5.0 /\
     (0 < with_default quote_interval_seconds 30)%Z).
Proof.
  eexists. repeat (split; [reflexivity |]).
  unfold well_formed_config, with_default. simpl. tauto.
Qed.

(** C2 as stated fails: a configuration with a zero trade size, a negative
    spread, a zero threshold and a negative interval is constructed. *)
Lemma config_construction_accepts_nonpositive :
  exists c,
    MarketMakerConfig_new TopOfBook.BTC 0 (Some (-0.01)) (Some 0) (Some (-30)%Z) None
      = inr c /\
    cfg_trade_size c <= 0 /\ cfg_spread_pct c <= 0 /\
    cfg_inventory_threshold c <= 0 /\ (cfg_quote_interval_seconds c <= 0)%Z /\
    ~ well_formed_config c.
Proof.
  eexists. split; [reflexivity |]. simpl.
  repeat split; try discriminate.
  intros (H & _). discriminate H.
Qed.

(** * Further properties of the strategy *)

(** ** What each handler does to the world *)

Ltac trace_eq := simpl; repeat (rewrite <- app_assoc; simpl); reflexivity.

Section Handlers.

Context {N : Nautilus}.

Lemma on_start_missing (cache : Cache) (w : World) :
  cache_instrument cache (instrument_id (self w)) = None ->
  on_start cache w =
    (inr tt,
     {| self := set_instrument None (self w);
        trace := trace w ++
                 [Log ERROR (Msg_instrument_not_found (instrument_id (self w)));
                  Stop_self] |}).
Proof.
  intro H. unfold on_start, bind, get_self, put_self, emit. simpl.
  rewrite H. simpl. f_equal. f_equal. trace_eq.
Qed.

Lemma on_start_found (cache : Cache) (w : World) (i : Instrument) :
  cache_instrument cache (instrument_id (self w)) = Some i ->
  on_start cache w =
    (inr tt,
     {| self := set_book (Some (OrderBook_new (id i) L2_MBP))
                         (set_instrument (Some i) (self w));
        trace := trace w ++
                 [Subscribe_order_book_deltas (id i) L2_MBP 50;
                  Set_timer "quote_timer" (quote_interval_seconds (self w));
                  Log INFO (Msg_started (spread_pct (self w))
                                        (inventory_threshold (self w))
                                        (quote_interval_seconds (self w)))] |}).
Proof.
  intro H. unfold on_start, bind, get_self, put_self, emit. simpl.
  rewrite H. simpl. f_equal. f_equal. trace_eq.
Qed.

Lemma on_stop_run (w : World) :
  on_stop w =
    (inr tt,
     add_trace w
       ([Cancel_timer "quote_timer"; Cancel_all_orders (instrument_id (self w))]
        ++ (if close_positions_on_stop (self w)
            then [Close_all_positions (instrument_id (self w))] else [])
        ++ [Log INFO Msg_stopped])).
Proof.
  unfold on_stop, bind, get_self, emit, add_trace. simpl.
  destruct (close_positions_on_stop (self w)); simpl; f_equal; f_equal; trace_eq.
Qed.

(** A book update: returns normally, logs at most one line, and either
    leaves the stored mid or stores the mean of two prices of the book. *)
Lemma on_order_book_deltas_run (deltas : OrderBookDeltas) (w : World) :
  exists s' added,
    on_order_book_deltas deltas w =
      (inr tt, {| self := s'; trace := trace w ++ added |}) /\
    same_config s' (self w) /\ instrument s' = instrument (self w) /\
    (_book (self w) = None -> s' = self w /\ added = []) /\
    forallb is_log added = true /\
    (_current_mid s' = _current_mid (self w) \/
     exists bid ask,
       _current_mid s' = Some ((Price_as_decimal bid + Price_as_decimal ask) / 2)).
Proof.
  unfold on_order_book_deltas, bind, get_self, put_self, emit, same_config.
  destruct w as [s tr]. simpl.
  destruct (_book s) as [book |] eqn:Hbook.
  - destruct (best_bid_price (apply_deltas book deltas)) as [bid |];
      destruct (best_ask_price (apply_deltas book deltas)) as [ask |]; simpl;
      eexists _, [_]; (split; [reflexivity |]); simpl;
      (split; [repeat split; reflexivity |]); (split; [reflexivity |]);
      (split; [discriminate |]); (split; [reflexivity |]);
      try (now left).
    right. exists bid, ask. reflexivity.
  - exists s, []. rewrite app_nil_r. simpl. split; [reflexivity |].
    split; [repeat split; reflexivity |]. split; [reflexivity |].
    split; [auto |]. split; [reflexivity | now left].
Qed.

(** A timer tick in any world: it returns normally with the fields of the
    strategy as they were, and the trace gains either the warning alone or
    the cancellation followed by the lines and the two orders of a plan. *)
Lemma _on_quote_timer_run (cache : Cache) (w : World) :
  _on_quote_timer cache w = (inr tt, add_trace w [Log WARNING Msg_cannot_quote]) \/
  exists mid i q,
    _current_mid (self w) = Some mid /\ ~ mid == 0 /\
    instrument (self w) = Some i /\
    plan (self w) mid (position_read cache (self w)) = inr q /\
    _on_quote_timer cache w =
      (inr tt,
       add_trace w
         ([Log INFO Msg_refreshing; Cancel_all_orders (instrument_id (self w))]
          ++ place_orders_trace cache (self w) q)).
Proof.
  destruct (mid_available (_current_mid (self w))) eqn:Hmid.
  - destruct (instrument (self w)) as [i |] eqn:Hinst.
    + right. destruct (_current_mid (self w)) as [mid |] eqn:Hstored;
        [| discriminate].
      simpl in Hmid. unfold Dec.truthy in Hmid.
      apply negb_true_iff, eqb_false in Hmid.
      destruct (plan_total (self w) mid (position_read cache (self w))) as [q Hq].
      exists mid, i, q.
      split; [reflexivity |]. split; [exact Hmid |]. split; [reflexivity |].
      split; [exact Hq |].
      now apply (_on_quote_timer_cycle cache w mid i q).
    + left. apply _on_quote_timer_skip. right. now rewrite Hinst.
  - left. apply _on_quote_timer_skip. now left.
Qed.

End Handlers.

(** ** The size of the skew and of the spreads *)

Section Spreads.

Context {N : Nautilus}.

Lemma half_is_half (a : Decimal) : a / 2 == a * (1 # 2).
Proof. reflexivity. Qed.

Lemma max_0_mono (a b : Decimal) : a <= b -> Dec.max a 0 <= Dec.max b 0.
Proof.
  intro H.
  destruct (max_cases a 0) as [[Ha ->] | [Ha ->]];
    destruct (max_cases b 0) as [[Hb ->] | [Hb ->]]; lra.
Qed.

Lemma max_0_eq (a b : Decimal) : a == b -> Dec.max a 0 == Dec.max b 0.
Proof.
  intro H. apply Qle_antisym; apply max_0_mono; rewrite H; apply Qle_refl.
Qed.

(** The skew for a threshold that is not negative lies in [0, 0.5]. *)
Lemma _calculate_skew_range (s : MarketMaker) (p k : Decimal) :
  0 <= inventory_threshold s -> _calculate_skew s p = inr k -> 0 <= k <= 0.5.
Proof.
  intros Hthr Hk. destruct (Dec.eqb (inventory_threshold s) 0) eqn:E.
  - unfold _calculate_skew in Hk. rewrite E in Hk. injection Hk as <-. lra.
  - apply eqb_false in E. rewrite (_calculate_skew_nonzero s p E) in Hk.
    injection Hk as <-.
    assert (Hpos : 0 < inventory_threshold s) by lra.
    pose proof (div_pos_nonneg (Qabs p) _ Hpos (Qabs_nonneg p)) as Hr.
    unfold MAX_SKEW.
    destruct (min_cases (Qabs p / inventory_threshold s * 0.5) 0.5)
      as [[Hm ->] | [Hm ->]]; lra.
Qed.

Lemma _calculate_skew_mono (s : MarketMaker) (p1 p2 k1 k2 : Decimal) :
  0 < inventory_threshold s -> Qabs p1 <= Qabs p2 ->
  _calculate_skew s p1 = inr k1 -> _calculate_skew s p2 = inr k2 -> k1 <= k2.
Proof.
  intros Hthr Hle H1 H2.
  assert (Hnz : ~ inventory_threshold s == 0) by lra.
  rewrite (_calculate_skew_nonzero s p1 Hnz) in H1.
  rewrite (_calculate_skew_nonzero s p2 Hnz) in H2.
  injection H1 as <-. injection H2 as <-.
  apply skew_mono_in_ratio, div_pos_mono; assumption.
Qed.

(** X1: below the threshold the skew is linear in the size of the
    position: for a positive threshold and abs(position) <= threshold the
    skew calculation returns abs(position) / threshold * 0.5. *)
Theorem skew_linear_below_threshold (s : MarketMaker) (p : Decimal)
    (Hthr : 0 < inventory_threshold s)
    (Hbelow : Qabs p <= inventory_threshold s) :
  exists k, _calculate_skew s p = inr k /\
            k == Qabs p / inventory_threshold s * 0.5.
Proof.
  assert (Hnz : ~ inventory_threshold s == 0) by lra.
  eexists. split; [apply (_calculate_skew_nonzero s p Hnz) |].
  assert (Hr : Qabs p / inventory_threshold s <= 1)
    by (apply Qle_shift_div_r; [exact Hthr | lra]).
  unfold MAX_SKEW.
  destruct (min_cases (Qabs p / inventory_threshold s * 0.5) 0.5)
    as [[Hm ->] | [Hm ->]]; lra.
Qed.

(** X2: a negative threshold, which construction accepts, turns the skew
    around: the calculation returns abs(position) / threshold * 0.5 without
    a cap, a value that is never positive, so the side meant to be
    tightened is widened instead. *)
Theorem skew_negative_threshold (s : MarketMaker) (p : Decimal)
    (Hthr : inventory_threshold s < 0) :
  exists k, _calculate_skew s p = inr k /\
            k == Qabs p / inventory_threshold s * 0.5 /\ k <= 0 /\
            forall mid q, 0 < p -> plan s mid p = inr q -> 0 <= spread_pct s ->
                          spread_pct s / 2 <= ask_spread q.
Proof.
  assert (Hnz : ~ inventory_threshold s == 0) by lra.
  assert (Hr : Qabs p / inventory_threshold s <= 0).
  { unfold Qdiv. pose proof (Qabs_nonneg p) as Ha.
    pose proof (Qmult_inv_r _ Hnz) as Hinv. nra. }
  assert (Hmin : Dec.min (Qabs p / inventory_threshold s * MAX_SKEW) MAX_SKEW
                 = Qabs p / inventory_threshold s * MAX_SKEW).
  { unfold MAX_SKEW.
    destruct (min_cases (Qabs p / inventory_threshold s * 0.5) 0.5)
      as [[Hm _] | [_ ->]]; [lra | reflexivity]. }
  eexists. split; [apply (_calculate_skew_nonzero s p Hnz) |].
  rewrite Hmin. unfold MAX_SKEW. split; [reflexivity |]. split; [lra |].
  intros mid q Hlong Hq Hspread.
  destruct (plan_long s mid p q Hlong Hq) as (Hk & _ & ->).
  rewrite (_calculate_skew_nonzero s p Hnz), Hmin in Hk. injection Hk as Hk.
  pose proof (half_is_half (spread_pct s)) as Hh.
  assert (Hraw : spread_pct s / 2 <=
                 spread_pct s / 2 - spread_pct s / 2 * skew_fraction q).
  { rewrite <- Hk. unfold MAX_SKEW. nra. }
  rewrite max_0_id; [exact Hraw | lra].
Qed.

(** X3: with a threshold equal to zero the spreads are symmetric whatever
    the position: the skew of the plan is 0 and the bid spread and the ask
    spread are equal. *)
Theorem zero_threshold_symmetric_quotes (s : MarketMaker) (mid position : Decimal)
    (Hthr : inventory_threshold s == 0) :
  exists q, plan s mid position = inr q /\
    skew_fraction q = 0 /\ bid_spread q == ask_spread q.
Proof.
  destruct (plan_total s mid position) as [q Hq]. exists q.
  split; [exact Hq |].
  assert (Hskew : _calculate_skew s position = inr 0)
    by (unfold _calculate_skew; now rewrite (proj2 (eqb_true _ _) Hthr)).
  assert (Hraw : spread_pct s / 2 - spread_pct s / 2 * 0 == spread_pct s / 2)
    by ring.
  destruct (Qlt_le_dec 0 position) as [Hlong | Hle].
  - destruct (plan_long s mid position q Hlong Hq) as (Hk & -> & ->).
    rewrite Hskew in Hk. injection Hk as <-.
    split; [reflexivity |]. symmetry. now apply max_0_eq.
  - destruct (Qlt_le_dec position 0) as [Hshort | Hge].
    + destruct (plan_short s mid position q Hshort Hq) as (Hk & -> & ->).
      rewrite Hskew in Hk. injection Hk as <-.
      split; [reflexivity |]. now apply max_0_eq.
    + assert (Hz : position == 0) by lra.
      destruct (plan_flat s mid position q Hz Hq) as (-> & ->).
      unfold plan in Hq. rewrite Hskew in Hq. simpl in Hq.
      injection Hq as <-. split; reflexivity.
Qed.

(** X4: for a spread and a threshold that are not negative the floor clamp
    is never active: the skew of the plan lies in [0, 0.5], one spread is
    half of spread_pct and the other is that half reduced by the skew, as
    computed before the clamp; so each spread is at most half of spread_pct
    and at least that half reduced by the largest skew. *)
Theorem spreads_within_bounds (s : MarketMaker) (mid position : Decimal)
    (Hspread : 0 <= spread_pct s) (Hthr : 0 <= inventory_threshold s) :
  exists q, plan s mid position = inr q /\
    0 <= skew_fraction q <= 0.5 /\
    ((bid_spread q == spread_pct s / 2 /\
      ask_spread q == spread_pct s / 2 - spread_pct s / 2 * skew_fraction q) \/
     (ask_spread q == spread_pct s / 2 /\
      bid_spread q == spread_pct s / 2 - spread_pct s / 2 * skew_fraction q)) /\
    spread_pct s / 2 - spread_pct s / 2 * MAX_SKEW <= bid_spread q
      <= spread_pct s / 2 /\
    spread_pct s / 2 - spread_pct s / 2 * MAX_SKEW <= ask_spread q
      <= spread_pct s / 2.
Proof.
  destruct (plan_total s mid position) as [q Hq]. exists q.
  split; [exact Hq |].
  assert (Hh : spread_pct s / 2 == spread_pct s * (1 # 2)) by reflexivity.
  assert (Hcases :
    0 <= skew_fraction q <= 0.5 /\
    ((bid_spread q == spread_pct s / 2 /\
      ask_spread q == spread_pct s / 2 - spread_pct s / 2 * skew_fraction q) \/
     (ask_spread q == spread_pct s / 2 /\
      bid_spread q == spread_pct s / 2 - spread_pct s / 2 * skew_fraction q))).
  { assert (Hhalf : 0 <= spread_pct s / 2) by lra.
    destruct (Qlt_le_dec 0 position) as [Hlong | Hle].
    - destruct (plan_long s mid position q Hlong Hq) as (Hk & -> & ->).
      pose proof (_calculate_skew_range s position _ Hthr Hk) as Hrange.
      split; [exact Hrange |]. left.
      rewrite !max_0_id; [split; reflexivity | nra | lra].
    - destruct (Qlt_le_dec position 0) as [Hshort | Hge].
      + destruct (plan_short s mid position q Hshort Hq) as (Hk & -> & ->).
        pose proof (_calculate_skew_range s position _ Hthr Hk) as Hrange.
        split; [exact Hrange |]. right.
        rewrite !max_0_id; [split; reflexivity | nra | lra].
      + assert (Hz : position == 0) by lra.
        destruct (plan_flat s mid position q Hz Hq) as (Hbf & Haf).
        destruct (_calculate_skew_total s position) as [k Hk].
        pose proof (_calculate_skew_range s position k Hthr Hk) as Hrange.
        assert (Hkq : skew_fraction q = k).
        { unfold plan in Hq. rewrite Hk in Hq. simpl in Hq.
          injection Hq as <-. reflexivity. }
        rewrite Hkq. split; [exact Hrange |].
        assert (Hk0 : k == 0).
        { destruct (Dec.eqb (inventory_threshold s) 0) eqn:E.
          - unfold _calculate_skew in Hk. rewrite E in Hk.
            injection Hk as <-. reflexivity.
          - apply eqb_false in E. rewrite (_calculate_skew_nonzero s _ E) in Hk.
            injection Hk as <-. unfold MAX_SKEW.
            assert (Hr : Qabs position / inventory_threshold s == 0).
            { rewrite Hz. unfold Qdiv. simpl Qabs. apply Qmult_0_l. }
            destruct (min_cases (Qabs position / inventory_threshold s * 0.5) 0.5)
              as [[Hm ->] | [Hm ->]]; lra. }
        left. rewrite Hbf, Haf, max_0_id by exact Hhalf.
        split; [reflexivity |]. rewrite Hk0. ring. }
  destruct Hcases as (Hrange & Hsides).
  split; [exact Hrange |]. split; [exact Hsides |]. unfold MAX_SKEW.
  destruct Hsides as [(Hbs & Has) | (Has & Hbs)].
  - split; [rewrite Hbs; split; nra | rewrite Has; split; nra].
  - split; [rewrite Hbs; split; nra | rewrite Has; split; nra].
Qed.

End Spreads.

(** ** Quotes lean with the inventory *)

(** X5: for a positive threshold, a spread and a mid that are not negative,
    a larger long position never raises the ask price and leaves the bid
    price where it is; a larger short position never lowers the bid price
    and leaves the ask price where it is. *)
Theorem quotes_lean_with_inventory {N : Nautilus} (s : MarketMaker)
    (mid p1 p2 : Decimal)
    (Hthr : 0 < inventory_threshold s) (Hspread : 0 <= spread_pct s)
    (Hmid : 0 <= mid) :
  (0 < p1 -> p1 <= p2 ->
   exists q1 q2,
     plan s mid p1 = inr q1 /\ plan s mid p2 = inr q2 /\
     ask_price q2 <= ask_price q1 /\ bid_price q2 == bid_price q1) /\
  (p1 < 0 -> p2 <= p1 ->
   exists q1 q2,
     plan s mid p1 = inr q1 /\ plan s mid p2 = inr q2 /\
     bid_price q1 <= bid_price q2 /\ ask_price q2 == ask_price q1).
Proof.
  assert (Hh : spread_pct s / 2 == spread_pct s * (1 # 2)) by reflexivity.
  assert (Hhalf : 0 <= spread_pct s / 2) by lra.
  destruct (plan_total s mid p1) as [q1 Hq1].
  destruct (plan_total s mid p2) as [q2 Hq2].
  destruct (plan_prices s mid p1 q1 Hq1) as (Hb1 & Ha1 & _ & _).
  destruct (plan_prices s mid p2 q2 Hq2) as (Hb2 & Ha2 & _ & _).
  split.
  - intros Hp1 Hle. exists q1, q2. split; [exact Hq1 |]. split; [exact Hq2 |].
    assert (Hp2 : 0 < p2) by lra.
    destruct (plan_long s mid p1 q1 Hp1 Hq1) as (Hk1 & Hbs1 & Has1).
    destruct (plan_long s mid p2 q2 Hp2 Hq2) as (Hk2 & Hbs2 & Has2).
    assert (Habs : Qabs p1 <= Qabs p2)
      by (rewrite !Qabs_pos by lra; exact Hle).
    pose proof (_calculate_skew_mono s p1 p2 _ _ Hthr Habs Hk1 Hk2) as Hk.
    assert (Hs : ask_spread q2 <= ask_spread q1).
    { rewrite Has1, Has2. apply max_0_mono. nra. }
    split.
    + rewrite Ha1, Ha2. nra.
    + rewrite Hb1, Hb2, Hbs1, Hbs2. reflexivity.
  - intros Hp1 Hle. exists q1, q2. split; [exact Hq1 |]. split; [exact Hq2 |].
    assert (Hp2 : p2 < 0) by lra.
    destruct (plan_short s mid p1 q1 Hp1 Hq1) as (Hk1 & Hbs1 & Has1).
    destruct (plan_short s mid p2 q2 Hp2 Hq2) as (Hk2 & Hbs2 & Has2).
    assert (Habs : Qabs p1 <= Qabs p2)
      by (rewrite !Qabs_neg by lra; lra).
    pose proof (_calculate_skew_mono s p1 p2 _ _ Hthr Habs Hk1 Hk2) as Hk.
    assert (Hs : bid_spread q2 <= bid_spread q1).
    { rewrite Hbs1, Hbs2. apply max_0_mono. nra. }
    split.
    + rewrite Hb1, Hb2. nra.
    + rewrite Ha1, Ha2, Has1, Has2. reflexivity.
Qed.

(** ** One tick, one book update, one direct call *)

Section Steps.

Context {N : Nautilus}.

Lemma position_log_logs (cache : Cache) (s : MarketMaker) :
  forallb is_log (position_log cache s) = true.
Proof.
  unfold position_log. now destruct (positions_open cache (instrument_id s)).
Qed.

Lemma skew_log_logs (position skew : Decimal) :
  forallb is_log (skew_log position skew) = true.
Proof.
  unfold skew_log.
  destruct (Dec.gtb position 0); [reflexivity |].
  now destruct (Dec.ltb position 0).
Qed.

(** X6: a timer tick never writes a field of the strategy, and when it
    does not skip, its first request is the cancellation of all orders:
    without a usable mid or without an instrument it adds the warning alone;
    otherwise what it adds to the trace begins with the refresh line and the
    cancellation for the strategy's instrument, before any position is read
    or any order is built. *)
Theorem quote_timer_keeps_fields_and_cancels_first (cache : Cache) (w : World) :
  self (snd (_on_quote_timer cache w)) = self w /\
  (mid_available (_current_mid (self w)) = false \/ instrument (self w) = None ->
   _on_quote_timer cache w =
     (inr tt, add_trace w [Log WARNING Msg_cannot_quote])) /\
  (mid_available (_current_mid (self w)) = true -> instrument (self w) <> None ->
   exists rest,
     trace (snd (_on_quote_timer cache w)) =
       trace w ++
       [Log INFO Msg_refreshing; Cancel_all_orders (instrument_id (self w))]
       ++ rest).
Proof.
  split; [| split].
  - destruct (_on_quote_timer_run cache w)
      as [-> | (mid & i & q & _ & _ & _ & _ & ->)]; reflexivity.
  - intros [Hmid | Hinst]; apply _on_quote_timer_skip; [now left | right].
    now rewrite Hinst.
  - intros Hmid Hinst.
    destruct (instrument (self w)) as [i |] eqn:Hi; [| now contradiction Hinst].
    destruct (_current_mid (self w)) as [mid |] eqn:Hstored; [| discriminate].
    simpl in Hmid. unfold Dec.truthy in Hmid.
    apply negb_true_iff, eqb_false in Hmid.
    destruct (plan_total (self w) mid (position_read cache (self w))) as [q Hq].
    rewrite (_on_quote_timer_cycle cache w mid i q Hstored Hmid Hi Hq).
    eexists. unfold add_trace. simpl. reflexivity.
Qed.

(** X7: called without a stored mid, on a cache that reports no open
    position, [_place_orders] raises a TypeError at the multiplication; by
    then it has written log lines only: it has submitted no order and
    changed no field. *)
Theorem place_orders_without_mid_raises (cache : Cache) (w : World)
    (Hflat : positions_open cache (instrument_id (self w)) = [])
    (Hmid : _current_mid (self w) = None) :
  exists lines,
    _place_orders cache w = (inl TypeError, add_trace w lines) /\
    forallb is_log lines = true.
Proof.
  unfold _place_orders.
  unfold bind at 1. rewrite emit_run.
  unfold bind at 1. rewrite _get_position_run. simpl self.
  unfold bind at 1. unfold get_self at 1. simpl self.
  unfold bind at 1. unfold lift at 1.
  destruct (_calculate_skew_total (self w) (position_read cache (self w)))
    as [k ->].
  unfold bind at 1. unfold lift at 1. rewrite div_2. rewrite Hmid.
  pose proof (position_log_logs cache (self w)) as Hlog.
  destruct (Dec.gtb (position_read cache (self w)) 0);
    [| destruct (Dec.ltb (position_read cache (self w)) 0)];
    unfold bind at 1; repeat (unfold bind at 1; rewrite emit_run);
    unfold ret at 1; simpl fst; simpl snd;
    unfold bind at 1; rewrite emit_run;
    unfold bind at 1; unfold lift at 1;
    rewrite !add_trace_app; eexists; (split; [reflexivity |]);
    rewrite !forallb_app, Hlog; reflexivity.
Qed.

(** X8: without an instrument no order is built: [_submit_buy] only logs
    its line, [_submit_sell] does nothing, and on a cache that reports no
    open position a whole run of [_place_orders] on a stored mid returns
    normally having added log lines only. *)
Theorem place_orders_without_instrument_sends_nothing (cache : Cache) (w : World)
    (mid : Decimal)
    (Hinst : instrument (self w) = None)
    (Hflat : positions_open cache (instrument_id (self w)) = [])
    (Hmid : _current_mid (self w) = Some mid) :
  (forall price,
     _submit_buy price w =
       (inr tt, add_trace w [Log INFO (Msg_submitting_buy price)]) /\
     _submit_sell price w = (inr tt, w)) /\
  exists lines,
    _place_orders cache w = (inr tt, add_trace w lines) /\
    forallb is_log lines = true.
Proof.
  split.
  - intro price.
    unfold _submit_buy, _submit_sell, bind, get_self, emit, ret, add_trace. simpl.
    now rewrite Hinst.
  - destruct (plan_total (self w) mid (position_read cache (self w))) as [q Hq].
    rewrite (_place_orders_plan cache w mid q Hmid Hq).
    eexists. split; [reflexivity |].
    unfold place_orders_trace, submissions. rewrite Hinst.
    rewrite !forallb_app, position_log_logs, skew_log_logs. reflexivity.
Qed.

(** X9: a book update never trades: in every world it returns normally,
    adds at most one line to the log and nothing else to the trace (no
    cancellation, no order), and leaves the configuration fields and the
    instrument as they are. *)
Theorem book_update_never_trades (deltas : OrderBookDeltas) (w : World) :
  exists s' lines,
    on_order_book_deltas deltas w =
      (inr tt, {| self := s'; trace := trace w ++ lines |}) /\
    forallb is_log lines = true /\ (List.length lines <= 1)%nat /\
    same_config s' (self w) /\ instrument s' = instrument (self w).
Proof.
  unfold on_order_book_deltas, bind, get_self, put_self, emit, same_config.
  destruct w as [s tr]. simpl.
  destruct (_book s) as [book |].
  - destruct (best_bid_price (apply_deltas book deltas));
      destruct (best_ask_price (apply_deltas book deltas)); simpl;
      eexists _, [_]; (split; [reflexivity |]); simpl;
      repeat split; auto.
  - exists s, []. rewrite app_nil_r. simpl. repeat split; auto.
Qed.

(** X10: a timer tick does not look at the order book: two worlds that
    differ in the book alone get the same result and the same additions to
    the trace, so a tick quotes on the stored mid however stale. *)
Theorem quote_timer_ignores_book (cache : Cache) (s : MarketMaker)
    (tr : list Effect) (book : option OrderBook) :
  fst (_on_quote_timer cache {| self := set_book book s; trace := tr |}) =
    fst (_on_quote_timer cache {| self := s; trace := tr |}) /\
  trace (snd (_on_quote_timer cache {| self := set_book book s; trace := tr |})) =
    trace (snd (_on_quote_timer cache {| self := s; trace := tr |})).
Proof.
  destruct (mid_available (_current_mid s)) eqn:Hm.
  - destruct (instrument s) as [i |] eqn:Hi.
    + destruct (_current_mid s) as [mid |] eqn:Hmid; [| discriminate].
      simpl in Hm. unfold Dec.truthy in Hm.
      apply negb_true_iff, eqb_false in Hm.
      destruct (plan_total s mid (position_read cache s)) as [q Hq].
      rewrite (_on_quote_timer_cycle cache {| self := s; trace := tr |} mid i q);
        try assumption.
      rewrite (_on_quote_timer_cycle cache
                 {| self := set_book book s; trace := tr |} mid i q);
        try assumption.
      split; reflexivity.
    + rewrite (_on_quote_timer_skip cache {| self := s; trace := tr |})
        by (right; simpl; now rewrite Hi).
      rewrite (_on_quote_timer_skip cache {| self := set_book book s; trace := tr |})
        by (right; simpl; now rewrite Hi).
      split; reflexivity.
  - rewrite (_on_quote_timer_skip cache {| self := s; trace := tr |})
      by (left; exact Hm).
    rewrite (_on_quote_timer_skip cache {| self := set_book book s; trace := tr |})
      by (left; exact Hm).
    split; reflexivity.
Qed.

End Steps.

(** ** Invariants of a run *)

Section Runs.

Context {N : Nautilus}.

Lemma same_config_refl (s : MarketMaker) : same_config s s.
Proof. unfold same_config. repeat split. Qed.

Lemma same_config_trans (a b c : MarketMaker) :
  same_config a b -> same_config b c -> same_config a c.
Proof.
  unfold same_config. intros (H1 & H2 & H3 & H4 & H5 & H6) (K1 & K2 & K3 & K4 & K5 & K6).
  repeat split; congruence.
Qed.

(** What one event adds, for every world: the handler returns normally,
    keeps the configuration fields, and its additions to the trace respect
    the pairing of orders; a mid is touched by a book update only; positions
    are closed by a stop only, and only under the flag. *)
Lemma handle_run (e : Event) (w : World) :
  exists s' added,
    handle e w = (inr tt, {| self := s'; trace := trace w ++ added |}) /\
    same_config s' (self w) /\
    (is_book_event e = false -> _current_mid s' = _current_mid (self w)) /\
    (forall m, _current_mid (self w) = Some m -> exists m', _current_mid s' = Some m') /\
    (forall st, st <> Buy_sent ->
       exists st', pairing st added = Some st' /\ st' <> Buy_sent) /\
    (close_positions_on_stop (self w) = false ->
       forallb (fun x => negb (is_close x)) added = true).
Proof.
  destruct e as [cache | deltas | cache |]; simpl handle.
  - destruct (cache_instrument cache (instrument_id (self w))) as [i |] eqn:Hi.
    + rewrite (on_start_found cache w i Hi). eexists _, _.
      split; [reflexivity |]. split; [repeat split |].
      split; [reflexivity |]. split; [intros m Hm; now exists m |].
      split; [| reflexivity].
      intros st Hst. exists st. split; [| exact Hst].
      destruct st; [reflexivity | reflexivity | now contradiction Hst].
    + rewrite (on_start_missing cache w Hi). eexists _, _.
      split; [reflexivity |]. split; [repeat split |].
      split; [reflexivity |]. split; [intros m Hm; now exists m |].
      split; [| reflexivity].
      intros st Hst. exists st. split; [| exact Hst].
      destruct st; [reflexivity | reflexivity | now contradiction Hst].
  - destruct (on_order_book_deltas_run deltas w)
      as (s' & added & Hrun & Hcfg & _ & _ & Hlogs & Hmid).
    exists s', added. split; [exact Hrun |]. split; [exact Hcfg |].
    split; [discriminate |]. split; [| split].
    + intros m Hm. destruct Hmid as [-> | (bid & ask & ->)]; eauto.
    + intros st Hst. exists st. split; [| exact Hst].
      unfold pairing. clear Hrun. induction added as [| x rest IH]; [reflexivity |].
      simpl in Hlogs. apply andb_true_iff in Hlogs. destruct Hlogs as [Hx Hrest].
      destruct x; try discriminate. simpl.
      destruct st; [now apply IH | now apply IH | now contradiction Hst].
    + intros _. clear Hrun. induction added as [| x rest IH]; [reflexivity |].
      simpl in Hlogs. apply andb_true_iff in Hlogs. destruct Hlogs as [Hx Hrest].
      destruct x; try discriminate. simpl. now apply IH.
  - destruct (_on_quote_timer_run cache w)
      as [-> | (mid & i & q & Hmid & Hnz & Hinst & Hq & ->)].
    + eexists _, _. split; [reflexivity |]. split; [apply same_config_refl |].
      split; [reflexivity |]. split; [intros m Hm; now exists m |].
      split; [| reflexivity].
      intros st Hst. exists st. split; [| exact Hst].
      destruct st; [reflexivity | reflexivity | now contradiction Hst].
    + eexists _, _. split; [reflexivity |]. split; [apply same_config_refl |].
      split; [reflexivity |]. split; [intros m Hm; now exists m |].
      pose proof (position_log_logs cache (self w)) as Hpl.
      pose proof (skew_log_logs (position_read cache (self w)) (skew_fraction q))
        as Hsl.
      assert (Hkeep : forall lines,
                forallb is_log lines = true ->
                fold_left pairing_step lines (Some Cancelled) = Some Cancelled).
      { induction lines as [| x rest IH]; [reflexivity |]. simpl. intro H.
        apply andb_true_iff in H. destruct H as [Hx Hrest].
        destruct x; try discriminate. simpl. now apply IH. }
      assert (Hnoclose : forall lines,
                forallb is_log lines = true ->
                forallb (fun x => negb (is_close x)) lines = true).
      { induction lines as [| x rest IH]; [reflexivity |]. simpl. intro H.
        apply andb_true_iff in H. destruct H as [Hx Hrest].
        destruct x; try discriminate. simpl. now apply IH. }
      split.
      * intros st Hst. exists Idle. split; [| discriminate].
        unfold pairing, place_orders_trace, submissions. rewrite Hinst.
        assert (Hfirst : fold_left pairing_step
                  [Log INFO Msg_refreshing;
                   Cancel_all_orders (instrument_id (self w))] (Some st)
                = Some Cancelled)
          by (destruct st; [reflexivity | reflexivity | now contradiction Hst]).
        rewrite fold_left_app, Hfirst, !fold_left_app.
        change (fold_left pairing_step [Log INFO Msg_placing] (Some Cancelled))
          with (Some Cancelled).
        rewrite (Hkeep _ Hpl), (Hkeep _ Hsl). reflexivity.
      * intros _. unfold place_orders_trace, submissions. rewrite Hinst.
        rewrite !forallb_app, (Hnoclose _ Hpl), (Hnoclose _ Hsl). reflexivity.
  - rewrite on_stop_run. unfold add_trace. eexists _, _.
    split; [reflexivity |]. split; [apply same_config_refl |].
    split; [reflexivity |]. split; [intros m Hm; now exists m |]. split.
    + intros st Hst. exists Cancelled. split; [| discriminate].
      destruct (close_positions_on_stop (self w));
        (destruct st; [reflexivity | reflexivity | now contradiction Hst]).
    + intros ->. reflexivity.
Qed.

End Runs.

Section RunInvariants.

Context {N : Nautilus}.

Lemma handle_trace (e : Event) (w : World) (s' : MarketMaker) (added : list Effect) :
  handle e w = (inr tt, {| self := s'; trace := trace w ++ added |}) ->
  self (snd (handle e w)) = s' /\ trace (snd (handle e w)) = trace w ++ added.
Proof. intros ->. split; reflexivity. Qed.

Lemma run_same_config (events : list Event) (w : World) :
  same_config (self (run events w)) (self w).
Proof.
  revert w. induction events as [| e rest IH]; intro w; simpl.
  - apply same_config_refl.
  - destruct (handle_run e w) as (s' & added & Hrun & Hcfg & _).
    destruct (handle_trace e w s' added Hrun) as [Hs _].
    apply (same_config_trans _ _ _ (IH _)). now rewrite Hs.
Qed.

(** X11: the fields copied from the configuration are never written
    again: after any sequence of starts, book updates, ticks and stops the
    strategy holds the instrument id, trade size, spread, threshold,
    interval and close-on-stop flag of the configuration it was built
    from. *)
Theorem config_fields_never_change (config : MarketMakerConfig)
    (events : list Event) :
  instrument_id (self (run events (MarketMaker_init config)))
    = cfg_instrument_id config /\
  trade_size (self (run events (MarketMaker_init config)))
    = cfg_trade_size config /\
  spread_pct (self (run events (MarketMaker_init config)))
    = cfg_spread_pct config /\
  inventory_threshold (self (run events (MarketMaker_init config)))
    = cfg_inventory_threshold config /\
  quote_interval_seconds (self (run events (MarketMaker_init config)))
    = cfg_quote_interval_seconds config /\
  close_positions_on_stop (self (run events (MarketMaker_init config)))
    = cfg_close_positions_on_stop config.
Proof.
  exact (run_same_config events (MarketMaker_init config)).
Qed.

(** X12: only a book update writes the mid, and nothing ever clears it: a
    start, a tick or a stop leaves the stored mid exactly as it was, and
    once a mid is stored some mid is stored after every further sequence of
    events, a stop followed by a new start included. *)
Theorem stored_mid_is_never_cleared :
  (forall e w, is_book_event e = false ->
     _current_mid (self (snd (handle e w))) = _current_mid (self w)) /\
  (forall events w m, _current_mid (self w) = Some m ->
     exists m', _current_mid (self (run events w)) = Some m').
Proof.
  split.
  - intros e w He.
    destruct (handle_run e w) as (s' & added & Hrun & _ & Hkeep & _).
    destruct (handle_trace e w s' added Hrun) as [-> _]. now apply Hkeep.
  - induction events as [| e rest IH]; intros w m Hm; simpl.
    + now exists m.
    + destruct (handle_run e w) as (s' & added & Hrun & _ & _ & Hsome & _).
      destruct (handle_trace e w s' added Hrun) as [Hs _].
      destruct (Hsome m Hm) as [m1 Hm1].
      apply (IH _ m1). now rewrite Hs.
Qed.

Lemma pairing_app (st : Quoting) (l1 l2 : list Effect) (st1 : Quoting) :
  pairing st l1 = Some st1 -> pairing st (l1 ++ l2) = pairing st1 l2.
Proof. unfold pairing. intro H. now rewrite fold_left_app, H. Qed.

Lemma run_pairing (events : list Event) (w : World) (st : Quoting) :
  pairing Idle (trace w) = Some st -> st <> Buy_sent ->
  exists st', pairing Idle (trace (run events w)) = Some st' /\ st' <> Buy_sent.
Proof.
  revert w st. induction events as [| e rest IH]; intros w st Hst Hok; simpl.
  - now exists st.
  - destruct (handle_run e w) as (s' & added & Hrun & _ & _ & _ & Hpair & _).
    destruct (handle_trace e w s' added Hrun) as [_ Htr].
    destruct (Hpair st Hok) as (st1 & Hst1 & Hok1).
    apply (IH _ st1); [| exact Hok1].
    now rewrite Htr, (pairing_app _ _ _ _ Hst), Hst1.
Qed.

(** X13: orders are only ever sent as cancel-then-replace pairs.  Reading
    the trace of any run from the initial state, a buy order comes only
    after a cancellation of all orders with no other order in between, the
    request right after a buy order is the sell order, and a sell order
    comes in no other place; the trace never ends between the two. *)
Theorem orders_are_sent_in_pairs_after_a_cancel (config : MarketMakerConfig)
    (events : list Event) :
  exists st,
    pairing Idle (trace (run events (MarketMaker_init config))) = Some st /\
    st <> Buy_sent.
Proof.
  apply (run_pairing events (MarketMaker_init config) Idle);
    [reflexivity | discriminate].
Qed.

Lemma run_no_close (events : list Event) (w : World) :
  close_positions_on_stop (self w) = false ->
  forallb (fun x => negb (is_close x)) (trace w) = true ->
  forallb (fun x => negb (is_close x)) (trace (run events w)) = true.
Proof.
  revert w. induction events as [| e rest IH]; intros w Hflag Hw; simpl.
  - exact Hw.
  - destruct (handle_run e w) as (s' & added & Hrun & Hcfg & _ & _ & _ & Hclose).
    destruct (handle_trace e w s' added Hrun) as [Hs Htr].
    apply IH.
    + rewrite Hs. destruct Hcfg as (_ & _ & _ & _ & _ & ->). exact Hflag.
    + rewrite Htr, forallb_app, Hw, (Hclose Hflag). reflexivity.
Qed.

(** X14: with the close-on-stop flag off, no run from the initial state
    ever asks the framework to close positions, whatever the events. *)
Theorem no_close_without_the_flag (config : MarketMakerConfig)
    (events : list Event)
    (Hflag : cfg_close_positions_on_stop config = false) :
  forallb (fun x => negb (is_close x))
          (trace (run events (MarketMaker_init config))) = true.
Proof.
  now apply run_no_close.
Qed.

End RunInvariants.

(** ** Starting, stopping and the first quote *)

Section Lifecycle.

Context {N : Nautilus}.

Lemma run_after_failed_start (iid : InstrumentId) (events : list Event) (w : World) :
  Forall (start_fails iid) events ->
  instrument_id (self w) = iid ->
  _book (self w) = None -> _current_mid (self w) = None ->
  exists added,
    trace (run events w) = trace w ++ added /\
    _book (self (run events w)) = None /\
    _current_mid (self (run events w)) = None /\
    forallb (fun x => negb (is_submit x)) added = true /\
    forallb (fun x => negb (is_subscription_or_timer x)) added = true.
Proof.
  intro Hev. revert w.
  induction Hev as [| e rest He _ IH]; intros w Hid Hbook Hmid.
  - exists []. simpl. rewrite app_nil_r. auto.
  - simpl run.
    assert (Hstep : exists s' a1,
              handle e w = (inr tt, {| self := s'; trace := trace w ++ a1 |}) /\
              instrument_id s' = iid /\ _book s' = None /\ _current_mid s' = None /\
              forallb (fun x => negb (is_submit x)) a1 = true /\
              forallb (fun x => negb (is_subscription_or_timer x)) a1 = true).
    { destruct e as [cache | deltas | cache |]; simpl handle.
      - simpl in He. rewrite <- Hid in He.
        rewrite (on_start_missing cache w He). eexists _, _.
        split; [reflexivity |]. simpl. auto.
      - destruct (on_order_book_deltas_run deltas w)
          as (s' & added & Hrun & _ & _ & Hnone & _).
        destruct (Hnone Hbook) as [-> ->].
        exists (self w), []. split; [exact Hrun |]. auto.
      - rewrite (_on_quote_timer_skip cache w) by (left; now rewrite Hmid).
        eexists _, _. split; [reflexivity |]. auto.
      - rewrite on_stop_run. unfold add_trace. eexists _, _.
        split; [reflexivity |]. repeat (split; [assumption |]).
        now destruct (close_positions_on_stop (self w)). }
    destruct Hstep as (s' & a1 & Hrun & Hid' & Hbook' & Hmid' & Hs1 & Ht1).
    rewrite Hrun. simpl snd.
    destruct (IH {| self := s'; trace := trace w ++ a1 |} Hid' Hbook' Hmid')
      as (a2 & Htr & Hb2 & Hm2 & Hs2 & Ht2).
    exists (a1 ++ a2). rewrite Htr. simpl trace. rewrite <- app_assoc.
    split; [reflexivity |]. split; [exact Hb2 |]. split; [exact Hm2 |].
    rewrite !forallb_app, Hs1, Hs2, Ht1, Ht2. auto.
Qed.

(** X15: a strategy whose instrument is not in the cache never trades.
    When every start looks the instrument up in vain, then after any
    sequence of starts, book updates, ticks and stops no order book exists,
    no mid is stored, and the trace holds no order, no subscription and no
    timer: book updates are dropped and every tick is skipped. *)
Theorem failed_start_never_quotes (config : MarketMakerConfig) (events : list Event)
    (Hfail : Forall (start_fails (cfg_instrument_id config)) events) :
  _book (self (run events (MarketMaker_init config))) = None /\
  _current_mid (self (run events (MarketMaker_init config))) = None /\
  forallb (fun x => negb (is_submit x))
          (trace (run events (MarketMaker_init config))) = true /\
  forallb (fun x => negb (is_subscription_or_timer x))
          (trace (run events (MarketMaker_init config))) = true.
Proof.
  destruct (run_after_failed_start (cfg_instrument_id config) events
              (MarketMaker_init config) Hfail eq_refl eq_refl eq_refl)
    as (added & Htr & Hbook & Hmid & Hs & Ht).
  rewrite Htr. simpl. auto.
Qed.

(** X16: the timer a start sets is the timer a stop cancels: a timer that
    [on_start] adds to the trace runs at the configured interval, and
    [on_stop], in whatever world, cancels a timer of that name. *)
Theorem stop_cancels_the_timer_start_sets (cache : Cache) (w w' : World)
    (name : string) (interval : Z)
    (Hset : In (Set_timer name interval) (trace (snd (on_start cache w)))) :
  In (Set_timer name interval) (trace w) \/
  (interval = quote_interval_seconds (self w) /\
   In (Cancel_timer name) (trace (snd (on_stop w')))).
Proof.
  destruct (cache_instrument cache (instrument_id (self w))) as [i |] eqn:Hi.
  - rewrite (on_start_found cache w i Hi) in Hset. simpl in Hset.
    apply in_app_or in Hset. destruct Hset as [Hold | Hnew]; [now left | right].
    destruct Hnew as [H | [H | [H | []]]]; try discriminate H.
    injection H as <- <-. split; [reflexivity |].
    rewrite on_stop_run. simpl. apply in_or_app. right. now left.
  - rewrite (on_start_missing cache w Hi) in Hset. simpl in Hset.
    apply in_app_or in Hset. destruct Hset as [Hold | Hnew]; [now left |].
    destruct Hnew as [H | [H | []]]; discriminate H.
Qed.

(** X17: a two-sided book update lets the next tick through the guard.
    With an order book and an instrument in place, when the update leaves a
    best bid and a best ask whose sum is positive, the mid
    (bid + ask) / 2 is stored, and the tick that follows does not skip: it
    logs the refresh and cancels all orders of the instrument first, and
    leaves the stored mid as it is. *)
Theorem two_sided_update_unlocks_the_tick (cache : Cache) (w : World)
    (book : OrderBook) (deltas : OrderBookDeltas) (i : Instrument)
    (bid ask : Price)
    (Hbook : _book (self w) = Some book)
    (Hinst : instrument (self w) = Some i)
    (Hbid : best_bid_price (apply_deltas book deltas) = Some bid)
    (Hask : best_ask_price (apply_deltas book deltas) = Some ask)
    (Hpos : 0 < Price_as_decimal bid + Price_as_decimal ask) :
  exists rest,
    trace (run [Ev_order_book_deltas deltas; Ev_quote_timer cache] w) =
      trace w ++
      [Log INFO (Msg_bid_ask (Some bid) (Some ask));
       Log INFO Msg_refreshing; Cancel_all_orders (instrument_id (self w))]
      ++ rest /\
    _current_mid (self (run [Ev_order_book_deltas deltas; Ev_quote_timer cache] w))
      = Some ((Price_as_decimal bid + Price_as_decimal ask) / 2).
Proof.
  set (mid := (Price_as_decimal bid + Price_as_decimal ask) / 2).
  assert (Hmid : 0 < mid).
  { unfold mid. assert (Hh : forall a : Q, a / 2 == a * (1 # 2)) by reflexivity.
    rewrite Hh. lra. }
  set (w1 := {| self := set_current_mid (Some mid)
                          (set_book (Some (apply_deltas book deltas)) (self w));
                trace := trace w ++ [Log INFO (Msg_bid_ask (Some bid) (Some ask))] |}).
  assert (Hupd : on_order_book_deltas deltas w = (inr tt, w1)).
  { unfold on_order_book_deltas, bind, get_self, put_self, emit.
    rewrite Hbook, Hbid, Hask. reflexivity. }
  destruct (plan_total (self w1) mid (position_read cache (self w1))) as [q Hq].
  assert (Htick : _on_quote_timer cache w1 =
                    (inr tt,
                     add_trace w1
                       ([Log INFO Msg_refreshing;
                         Cancel_all_orders (instrument_id (self w1))]
                        ++ place_orders_trace cache (self w1) q))).
  { apply (_on_quote_timer_cycle cache w1 mid i q);
      [reflexivity | lra | exact Hinst | exact Hq]. }
  exists (place_orders_trace cache (self w1) q).
  simpl run. rewrite Hupd. simpl snd. rewrite Htick. simpl snd.
  split; [| reflexivity].
  unfold add_trace. simpl. rewrite <- app_assoc. reflexivity.
Qed.

End Lifecycle.

(** ** The further properties at concrete inputs *)

Lemma skew_linear_below_threshold_witness :
  exists k,
    _calculate_skew (self (TopOfBook.quoting 0.01 5 None)) 2.5 = inr k /\
    k == 0.25.
Proof.
  destruct (skew_linear_below_threshold (self (TopOfBook.quoting 0.01 5 None)) 2.5)
    as (k & Hk & Hv).
  - reflexivity.
  - discriminate.
  - exists k. split; [exact Hk |]. rewrite Hv. reflexivity.
Defined.

Lemma skew_negative_threshold_witness :
  exists k,
    _calculate_skew (self (TopOfBook.quoting 0.01 (-5) None)) 2.5 = inr k /\
    k == -0.25.
Proof.
  destruct (skew_negative_threshold (self (TopOfBook.quoting 0.01 (-5) None)) 2.5)
    as (k & Hk & Hv & _).
  - reflexivity.
  - exists k. split; [exact Hk |]. rewrite Hv. reflexivity.
Defined.

Lemma zero_threshold_symmetric_quotes_witness :
  exists q,
    plan (self (TopOfBook.quoting 0.01 0 None)) 100 3 = inr q /\
    bid_spread q == ask_spread q.
Proof.
  destruct (zero_threshold_symmetric_quotes
              (self (TopOfBook.quoting 0.01 0 None)) 100 3)
    as (q & Hq & _ & Hs).
  - reflexivity.
  - exists q. split; [exact Hq | exact Hs].
Defined.

Lemma spreads_within_bounds_witness :
  exists q,
    plan (self (TopOfBook.quoting 0.01 5 None)) 100 (-4) = inr q /\
    0.0025 <= bid_spread q /\ bid_spread q <= 0.005.
Proof.
  destruct (spreads_within_bounds (self (TopOfBook.quoting 0.01 5 None)) 100 (-4))
    as (q & Hq & _ & _ & [Hlow Hhigh] & _).
  - discriminate.
  - discriminate.
  - exists q. split; [exact Hq |]. split.
    + apply (Qle_trans _ (0.01 / 2 - 0.01 / 2 * MAX_SKEW)); [discriminate | exact Hlow].
    + apply (Qle_trans _ (0.01 / 2)); [exact Hhigh | discriminate].
Defined.

Lemma quotes_lean_with_inventory_witness :
  exists q1 q2,
    plan (self (TopOfBook.quoting 0.01 5 None)) 100 1 = inr q1 /\
    plan (self (TopOfBook.quoting 0.01 5 None)) 100 3 = inr q2 /\
    ask_price q2 <= ask_price q1.
Proof.
  destruct (quotes_lean_with_inventory (self (TopOfBook.quoting 0.01 5 None)) 100 1 3)
    as [Hlong _].
  - reflexivity.
  - discriminate.
  - discriminate.
  - destruct Hlong as (q1 & q2 & H1 & H2 & Hle & _).
    + reflexivity.
    + discriminate.
    + exists q1, q2. auto.
Defined.

Lemma place_orders_without_mid_raises_witness :
  fst (_place_orders (TopOfBook.cache_with []) (TopOfBook.quoting 0.01 5 None))
    = inl TypeError.
Proof.
  destruct (place_orders_without_mid_raises (TopOfBook.cache_with [])
              (TopOfBook.quoting 0.01 5 None) eq_refl eq_refl) as (lines & -> & _).
  reflexivity.
Defined.

Lemma place_orders_without_instrument_sends_nothing_witness :
  exists lines,
    _place_orders (TopOfBook.cache_with []) (Examples.unstarted (Some 100)) =
      (inr tt, add_trace (Examples.unstarted (Some 100)) lines) /\
    forallb is_log lines = true.
Proof.
  exact (proj2 (place_orders_without_instrument_sends_nothing
                  (TopOfBook.cache_with []) (Examples.unstarted (Some 100))
                  100 eq_refl eq_refl eq_refl)).
Defined.

Lemma no_close_without_the_flag_witness :
  forallb (fun x => negb (is_close x))
          (trace (run Examples.stop_after_start
                      (MarketMaker_init Examples.keep_positions))) = true.
Proof.
  exact (no_close_without_the_flag Examples.keep_positions
           Examples.stop_after_start eq_refl).
Defined.

Lemma failed_start_never_quotes_witness :
  _current_mid (self (run Examples.after_failed_start
                          (MarketMaker_init TopOfBook.config))) = None /\
  forallb (fun x => negb (is_submit x))
          (trace (run Examples.after_failed_start
                      (MarketMaker_init TopOfBook.config))) = true.
Proof.
  assert (Hfail : Forall (start_fails (cfg_instrument_id TopOfBook.config))
                         Examples.after_failed_start).
  { unfold Examples.after_failed_start.
    repeat (apply Forall_cons; [exact I || reflexivity |]). apply Forall_nil. }
  destruct (failed_start_never_quotes TopOfBook.config Examples.after_failed_start
              Hfail) as (_ & Hmid & Hsubmit & _).
  split; [exact Hmid | exact Hsubmit].
Defined.

Lemma stop_cancels_the_timer_start_sets_witness :
  In (Cancel_timer "quote_timer")
     (trace (snd (on_stop (TopOfBook.quoting 0.01 5 (Some 100))))).
Proof.
  destruct (stop_cancels_the_timer_start_sets (TopOfBook.cache_with [])
              (MarketMaker_init TopOfBook.config)
              (TopOfBook.quoting 0.01 5 (Some 100)) "quote_timer" 5)
    as [Hold | [_ Hcancel]].
  - simpl. right. left. reflexivity.
  - destruct Hold.
  - exact Hcancel.
Defined.

Lemma two_sided_update_unlocks_the_tick_witness :
  exists mid,
    _current_mid
      (self (run [Ev_order_book_deltas (N := TopOfBook.nautilus)
                    (Some (99, 2%Z), Some (101, 2%Z));
                  Ev_quote_timer (TopOfBook.cache_with [])]
                 (TopOfBook.quoting 0.01 5 None))) = Some mid /\
    mid == 100.
Proof.
  destruct (two_sided_update_unlocks_the_tick (N := TopOfBook.nautilus)
              (TopOfBook.cache_with []) (TopOfBook.quoting 0.01 5 None)
              (None, None) (Some (99, 2%Z), Some (101, 2%Z))
              TopOfBook.btc_instrument (99, 2%Z) (101, 2%Z))
    as (rest & _ & Hmid); try reflexivity.
  eexists. split; [exact Hmid | reflexivity].
Defined.
